(** * AI-Need-Job (Taller1_TopicosSoftware): a shallow embedding of the
      résumé/vacancy matching platform and the properties of its handlers.

    The Python modules are embedded module by module:
    - [PyStr]          the [str] methods the views call
    - [Services]       CVapp/services.py: strategy selection, cosine similarity
    - [NumPy]          [tobytes], [frombuffer] and [random.rand] on arrays
                       given by the bit patterns of their elements
    - [ORM], [Models]  the tables of users/models.py, offer/models.py and
                       CVapp/models.py
    - [Notifications]  notifications/services.py (observer pattern)
    - [Django]         requests, responses, flash messages, handler monad
    - [Env]            settings, forms and the external services
    - [Strategies]     CVapp/services.py: extraction and embedding services
    - [CVappViews], [OfferViews], [UsersViews], [NotificationViews]
    - [System]         the handlers as a transition system, test fixtures

    Conventions.  A Python [str] is a [string] (its UTF-8 bytes), a
    [bytes] object a [list byte], a Python [float] or NumPy float64
    scalar a primitive binary64 [float]; a raised exception is the
    [Raise] branch of [result].  A handler is a state transformer over
    [World]: the database, the process-wide notification subject and the
    flash messages.  Template rendering and the document generators are
    total: [render] and [attachment] only record what is handed to them.
    Creation timestamps are not stored; "newest first" is the reverse
    order of creation.  The store accepts every value of a field's
    Python type. *)

From Stdlib Require Import List String Ascii Bool Arith ZArith Lia.
From Stdlib Require Import Floats Permutation Sorted.
From Stdlib.Strings Require Byte.
Import ListNotations.

Local Open Scope string_scope.
Local Open Scope list_scope.

(* ================================================================== *)
(** * Python exceptions and fallible computations                       *)
(* ================================================================== *)

(** The exception classes that the embedded code can raise.  All of them
    derive from [Exception]. *)
Inductive PyExc : Type :=
| ValueError          (* list.remove(x), np.frombuffer, np.dot shape mismatch, int() *)
| TypeError           (* str + None *)
| RuntimeError        (* "PyPDF2 is not installed", "openai package is not installed" *)
| ImportError         (* from openai import OpenAI *)
| AttributeError      (* settings.OPENAI_API_KEY missing, None.strip() *)
| UnicodeDecodeError  (* bytes.decode("utf-8") *)
| DoesNotExist        (* Model.objects.get: no row *)
| MultipleObjectsReturned  (* Model.objects.get: more than one row *)
| Http404             (* get_object_or_404 *)
| OpenAIError         (* any error raised by the hosted client *)
| ConnectionError.    (* network failure *)

Inductive result (A : Type) : Type :=
| Ok (a : A)
| Raise (e : PyExc).
Arguments Ok {A} a.
Arguments Raise {A} e.

Definition rbind {A B} (m : result A) (k : A -> result B) : result B :=
  match m with
  | Ok a => k a
  | Raise e => Raise e
  end.

Declare Scope result_scope.
Delimit Scope result_scope with result.
Notation "x <- m ;; k" := (rbind m (fun x => k))
  (at level 61, m at next level, right associativity) : result_scope.

(* ================================================================== *)
(** * Python string primitives used by the views                        *)
(* ================================================================== *)

Module PyStr.

(** [str.lower] on one character.  Only the 26 ASCII capitals are
    mapped; the code compares the result with the ASCII literal "pdf"
    and no other character lower-cases to "p", "d" or "f". *)
Definition lower_ascii (c : ascii) : ascii :=
  let n := nat_of_ascii c in
  if ((65 <=? n) && (n <=? 90))%nat then ascii_of_nat (n + 32) else c.

Fixpoint lower (s : string) : string :=
  match s with
  | EmptyString => EmptyString
  | String c r => String (lower_ascii c) (lower r)
  end.

(** [after_last sep s] is [Some t] when [s] contains [sep] and [t] is
    what follows its last occurrence; [before_last] is what precedes it. *)
Fixpoint after_last (sep : ascii) (s : string) : option string :=
  match s with
  | EmptyString => None
  | String c r =>
      match after_last sep r with
      | Some t => Some t
      | None => if Ascii.eqb c sep then Some r else None
      end
  end.

Fixpoint before_last (sep : ascii) (s : string) : string :=
  match s with
  | EmptyString => EmptyString
  | String c r =>
      match after_last sep r with
      | Some _ => String c (before_last sep r)
      | None => EmptyString
      end
  end.

(** [s.rsplit(sep, 1)]: at most one split, made at the last separator.
    Without a separator the result is the one-element list [[s]]. *)
Definition rsplit1 (sep : ascii) (s : string) : list string :=
  match after_last sep s with
  | Some t => [before_last sep s; t]
  | None => [s]
  end.

(** [xs[-1]] on a non-empty list of strings. *)
Definition last_item (xs : list string) : string := List.last xs EmptyString.

(** ASCII white space, as stripped by [str.strip()]. *)
Definition is_space (c : ascii) : bool :=
  let n := nat_of_ascii c in
  ((n =? 32) || ((9 <=? n) && (n <=? 13)) || ((28 <=? n) && (n <=? 31)))%nat.

Fixpoint lstrip (s : string) : string :=
  match s with
  | EmptyString => EmptyString
  | String c r => if is_space c then lstrip r else s
  end.

Fixpoint rstrip (s : string) : string :=
  match s with
  | EmptyString => EmptyString
  | String c r =>
      match rstrip r with
      | EmptyString => if is_space c then EmptyString else String c EmptyString
      | r' => String c r'
      end
  end.

Definition strip (s : string) : string := rstrip (lstrip s).

(** Truthiness of a [str]: non-empty. *)
Definition truthy (s : string) : bool :=
  match s with EmptyString => false | _ => true end.

End PyStr.

(* ================================================================== *)
(** * CVapp/services.py                                                  *)
(* ================================================================== *)

Module Services.

(** The two concrete [FileExtractionStrategy] classes. *)
Inductive FileExtractionStrategy : Type :=
| PdfExtractionStrategy
| TextExtractionStrategy.

(** [_get_extraction_strategy] (identical in CVapp/views.py and
    offer/views.py):
<<
    ext = filename.rsplit(".", 1)[-1].lower()
    if ext == "pdf": return PdfExtractionStrategy()
    return TextExtractionStrategy()
>> *)
Definition _get_extraction_strategy (filename : string) : FileExtractionStrategy :=
  let ext := PyStr.lower (PyStr.last_item (PyStr.rsplit1 "." filename)) in
  if String.eqb ext "pdf" then PdfExtractionStrategy else TextExtractionStrategy.

Local Open Scope float_scope.

(** [np.dot(a, b)] on two 1-D arrays: [ValueError] when the shapes
    differ, otherwise the sum of the element products.  The sum is
    accumulated from the left starting at 0; the order in which the
    linked BLAS adds the products of long vectors is not fixed by NumPy,
    and the statements below depend on it only where they evaluate
    vectors of one or two elements. *)
Fixpoint dot_acc (acc : float) (a b : list float) : float :=
  match a, b with
  | x :: a', y :: b' => dot_acc (acc + x * y) a' b'
  | _, _ => acc
  end.

Definition np_dot (a b : list float) : result float :=
  if Nat.eqb (List.length a) (List.length b) then Ok (dot_acc 0 a b)
  else Raise ValueError.

(** [np.linalg.norm(x)] for a 1-D real array: [sqrt(x.dot(x))]. *)
Definition np_linalg_norm (x : list float) : float := sqrt (dot_acc 0 x x).

(** [cosine_similarity]:
<<
    denom = float(np.linalg.norm(a) * np.linalg.norm(b))
    if denom == 0: return 0.0
    return float(np.dot(a, b) / denom)
>> *)
Definition cosine_similarity (a b : list float) : result float :=
  let denom := np_linalg_norm a * np_linalg_norm b in
  if denom =? 0 then Ok 0
  else (d <- np_dot a b ;; Ok (d / denom))%result.

End Services.

(* ================================================================== *)
(** * The NumPy boundary: arrays as raw element words                   *)
(* ================================================================== *)

Module NumPy.

Definition bytes : Type := list Byte.byte.

Definition byte_of_Z (z : Z) : Byte.byte :=
  match Byte.of_N (Z.to_N (Z.land z 255)) with
  | Some b => b
  | None => Byte.x00
  end.

Definition Z_of_byte (b : Byte.byte) : Z := Z.of_N (Byte.to_N b).

Inductive dtype : Type := float32 | float64.

Definition itemsize (d : dtype) : nat :=
  match d with float32 => 4 | float64 => 8 end.

(** A 1-D array: its element type and, per element, the IEEE-754 bit
    pattern ([0 <= w < 2^(8*itemsize)]). *)
Record ndarray : Type := mk_ndarray { nd_dtype : dtype; nd_words : list Z }.

Definition size (a : ndarray) : nat := List.length (nd_words a).

(** The bytes of one element, least significant first (the native byte
    order of the deployment targets). *)
Definition element_bytes (k : nat) (w : Z) : bytes :=
  map (fun i => byte_of_Z (Z.shiftr w (8 * Z.of_nat i))) (seq 0 k).

(** [a.tobytes()] *)
Definition tobytes (a : ndarray) : bytes :=
  flat_map (element_bytes (itemsize (nd_dtype a))) (nd_words a).

Definition word32 (b0 b1 b2 b3 : Byte.byte) : Z :=
  Z.lor (Z_of_byte b0)
    (Z.lor (Z.shiftl (Z_of_byte b1) 8)
       (Z.lor (Z.shiftl (Z_of_byte b2) 16) (Z.shiftl (Z_of_byte b3) 24))).

Fixpoint words32 (buf : bytes) : option (list Z) :=
  match buf with
  | [] => Some []
  | b0 :: b1 :: b2 :: b3 :: rest =>
      match words32 rest with
      | Some ws => Some (word32 b0 b1 b2 b3 :: ws)
      | None => None
      end
  | _ => None
  end.

(** [np.frombuffer(buf, dtype=np.float32)]: [ValueError] ("buffer size
    must be a multiple of element size") unless the length is a multiple
    of 4. *)
Definition frombuffer_float32 (buf : bytes) : result ndarray :=
  match words32 buf with
  | Some ws => Ok (mk_ndarray float32 ws)
  | None => Raise ValueError
  end.

(** The value of an IEEE-754 pattern with [ebits] exponent bits and
    [mbits] fraction bits, as a binary64 float; exact for both dtypes. *)
Definition decode_ieee (ebits mbits : Z) (w : Z) : float :=
  let frac := Z.land w (Z.ones mbits) in
  let e := Z.land (Z.shiftr w mbits) (Z.ones ebits) in
  let neg := Z.testbit w (ebits + mbits) in
  let bias := (Z.shiftl 1 (ebits - 1) - 1)%Z in
  let magnitude :=
    if (e =? Z.ones ebits)%Z then
      if (frac =? 0)%Z then infinity else nan
    else if (e =? 0)%Z then
      Z.ldexp (of_uint63 (Uint63.of_Z frac)) (1 - bias - mbits)
    else
      Z.ldexp (of_uint63 (Uint63.of_Z (Z.lor frac (Z.shiftl 1 mbits))))
              (e - bias - mbits) in
  if neg then (- magnitude)%float else magnitude.

Definition element_value (d : dtype) (w : Z) : float :=
  match d with
  | float32 => decode_ieee 8 23 w
  | float64 => decode_ieee 11 52 w
  end.

(** The elements of an array as Python floats. *)
Definition values (a : ndarray) : list float :=
  map (element_value (nd_dtype a)) (nd_words a).

(** [np.random.rand(n)]: [n] draws from the global generator, returned
    as a float64 array.  [draw i] is the bit pattern of the i-th draw. *)
Definition random_rand (draw : nat -> Z) (n : nat) : ndarray :=
  mk_ndarray float64 (map draw (seq 0 n)).

(** Truthiness of a [bytes] object ([if resume.embedding:]). *)
Definition truthy (b : bytes) : bool :=
  match b with [] => false | _ => true end.

End NumPy.

(* ================================================================== *)
(** * The ORM boundary: tables with auto-incremented primary keys        *)
(* ================================================================== *)

Module ORM.

Definition pk : Type := nat.

(** Every model has an integer primary key [id]. *)
Class Model (R : Type) : Type := { pk_of : R -> pk }.

(** A table: its rows and the last key handed out by the sequence. *)
Record Table (R : Type) : Type := mk_table { rows : list R; last_pk : pk }.
Arguments mk_table {R} rows last_pk.
Arguments rows {R} t.
Arguments last_pk {R} t.

Definition empty {R} : Table R := mk_table [] 0.

Section Queries.
Context {R : Type} `{Model R}.

(** [Model.objects.create(...)]: the new row gets the next key. *)
Definition create (mk : pk -> R) (t : Table R) : R * Table R :=
  let r := mk (S (last_pk t)) in
  (r, mk_table (rows t ++ [r]) (S (last_pk t))).

Definition has_pk (k : pk) (r : R) : bool := Nat.eqb (pk_of r) k.

(** [instance.save()]: UPDATE of the row with the instance's key,
    INSERT when no such row exists. *)
Definition save (r : R) (t : Table R) : Table R :=
  if existsb (has_pk (pk_of r)) (rows t)
  then mk_table (map (fun x => if has_pk (pk_of r) x then r else x) (rows t)) (last_pk t)
  else mk_table (rows t ++ [r]) (Nat.max (last_pk t) (pk_of r)).

(** [instance.delete()] *)
Definition delete (r : R) (t : Table R) : Table R :=
  mk_table (List.filter (fun x => negb (has_pk (pk_of r) x)) (rows t)) (last_pk t).

(** [Model.objects.filter(...)], evaluated. *)
Definition filter (p : R -> bool) (t : Table R) : list R :=
  List.filter p (rows t).

(** [queryset.exists()] *)
Definition exists_ (p : R -> bool) (t : Table R) : bool :=
  existsb p (rows t).

(** [queryset.count()] *)
Definition count (p : R -> bool) (t : Table R) : nat :=
  List.length (filter p t).

(** [Model.objects.get(...)]: the one matching row; [DoesNotExist]
    without a match, [MultipleObjectsReturned] with several. *)
Definition get (p : R -> bool) (t : Table R) : result R :=
  match filter p t with
  | [r] => Ok r
  | [] => Raise DoesNotExist
  | _ => Raise MultipleObjectsReturned
  end.

(** [queryset.first()] / [queryset.last()] on an unordered queryset:
    the matching row with the least / greatest key. *)
Definition pick (better : pk -> pk -> bool) (rs : list R) : option R :=
  fold_left (fun best r =>
               match best with
               | None => Some r
               | Some b => if better (pk_of r) (pk_of b) then Some r else Some b
               end) rs None.

Definition first (p : R -> bool) (t : Table R) : option R :=
  pick Nat.ltb (filter p t).

Definition last (p : R -> bool) (t : Table R) : option R :=
  pick (fun a b => Nat.ltb b a) (filter p t).

End Queries.

End ORM.

(* ================================================================== *)
(** * users/models.py, offer/models.py, CVapp/models.py                  *)
(* ================================================================== *)

Module Models.
Import ORM NumPy.

(** users/models.py *)
Record User : Type := mk_User {
  user_id : pk;
  username : string;
  first_name : string;
  last_name : string;
  email : string;
  password : string;
  profile_image : option string;
  is_authenticated : bool;
  linkedin_id : option string;
  role : string
}.

(** offer/models.py.  [uploaded_at] (set once, read only by the feed
    ordering) is not modelled. *)
Record Vacancy : Type := mk_Vacancy {
  vacancy_id : pk;
  title : string;
  description : string;
  requirements : option string;
  vacancy_state : string;
  vacancy_uploaded_by : pk;
  vacancy_embedding : bytes
}.

(** CVapp/models.py *)
Record Resume : Type := mk_Resume {
  resume_id : pk;
  version : string;
  name : string;
  vacancy_text : string;
  extracted_text : string;
  upgraded_cv : string;
  resume_uploaded_by : pk;
  resume_embedding : bytes;
  image : option string
}.

Record Applied_resume : Type := mk_Applied_resume {
  applied_id : pk;
  applied_resume_fk : pk;
  applied_vacancy_fk : pk;
  match_rate : float;
  applied_state : string;
  feedback : option string
}.

Record Saved_vacancy : Type := mk_Saved_vacancy {
  saved_id : pk;
  saved_user_fk : pk;
  saved_vacancy_fk : pk
}.

(** Modelled from the spec: notifications/models.py is not part of the
    sources.  "Attributes: owning user (required), message text, read
    flag (boolean, default false), creation timestamp." *)
Record Notification : Type := mk_Notification {
  notification_id : pk;
  notification_user_fk : pk;
  message : string;
  read : bool
}.

#[export] Instance User_Model : Model User := {| pk_of := user_id |}.
#[export] Instance Vacancy_Model : Model Vacancy := {| pk_of := vacancy_id |}.
#[export] Instance Resume_Model : Model Resume := {| pk_of := resume_id |}.
#[export] Instance Applied_resume_Model : Model Applied_resume := {| pk_of := applied_id |}.
#[export] Instance Saved_vacancy_Model : Model Saved_vacancy := {| pk_of := saved_id |}.
#[export] Instance Notification_Model : Model Notification := {| pk_of := notification_id |}.

(** Field defaults. *)
Definition Applied_resume_state_default : string := "applied".
Definition Vacancy_state_default : string := "open".

(** CVapp/models.py:
<<
    def _default_embedding() -> bytes:
        default_arr = np.random.rand(1536)
        return default_arr.tobytes()
>> *)
Module CVapp.
Definition _default_embedding (draw : nat -> Z) : bytes :=
  let default_arr := random_rand draw 1536 in
  tobytes default_arr.
End CVapp.

(** offer/models.py:
<<
    def _default_embedding() -> bytes:
        return np.random.rand(1536).tobytes()
>> *)
Module offer.
Definition _default_embedding (draw : nat -> Z) : bytes :=
  tobytes (random_rand draw 1536).
End offer.

(** Field updates ([instance.field = value]). *)
Definition set_vacancy_state (s : string) (v : Vacancy) : Vacancy :=
  mk_Vacancy (vacancy_id v) (title v) (description v) (requirements v) s
             (vacancy_uploaded_by v) (vacancy_embedding v).

Definition set_vacancy_embedding (e : bytes) (v : Vacancy) : Vacancy :=
  mk_Vacancy (vacancy_id v) (title v) (description v) (requirements v)
             (vacancy_state v) (vacancy_uploaded_by v) e.

Definition set_resume_embedding (e : bytes) (r : Resume) : Resume :=
  mk_Resume (resume_id r) (version r) (name r) (vacancy_text r) (extracted_text r)
            (upgraded_cv r) (resume_uploaded_by r) e (image r).

Definition set_upgraded_cv (t : string) (r : Resume) : Resume :=
  mk_Resume (resume_id r) (version r) (name r) (vacancy_text r) (extracted_text r)
            t (resume_uploaded_by r) (resume_embedding r) (image r).

Definition set_applied_state (s : string) (a : Applied_resume) : Applied_resume :=
  mk_Applied_resume (applied_id a) (applied_resume_fk a) (applied_vacancy_fk a)
                    (match_rate a) s (feedback a).

Definition set_is_authenticated (b : bool) (u : User) : User :=
  mk_User (user_id u) (username u) (first_name u) (last_name u) (email u) (password u)
          (profile_image u) b (linkedin_id u) (role u).

Definition set_read (b : bool) (n : Notification) : Notification :=
  mk_Notification (notification_id n) (notification_user_fk n) (message n) b.

(** The relational store. *)
Record Database : Type := mk_Database {
  users : Table User;
  vacancies : Table Vacancy;
  resumes : Table Resume;
  applied_resumes : Table Applied_resume;
  saved_vacancies : Table Saved_vacancy;
  notifications : Table Notification
}.

Definition empty_database : Database :=
  mk_Database empty empty empty empty empty empty.

Definition with_users (t : Table User) (d : Database) : Database :=
  mk_Database t (vacancies d) (resumes d) (applied_resumes d) (saved_vacancies d) (notifications d).
Definition with_vacancies (t : Table Vacancy) (d : Database) : Database :=
  mk_Database (users d) t (resumes d) (applied_resumes d) (saved_vacancies d) (notifications d).
Definition with_resumes (t : Table Resume) (d : Database) : Database :=
  mk_Database (users d) (vacancies d) t (applied_resumes d) (saved_vacancies d) (notifications d).
Definition with_applied_resumes (t : Table Applied_resume) (d : Database) : Database :=
  mk_Database (users d) (vacancies d) (resumes d) t (saved_vacancies d) (notifications d).
Definition with_saved_vacancies (t : Table Saved_vacancy) (d : Database) : Database :=
  mk_Database (users d) (vacancies d) (resumes d) (applied_resumes d) t (notifications d).
Definition with_notifications (t : Table Notification) (d : Database) : Database :=
  mk_Database (users d) (vacancies d) (resumes d) (applied_resumes d) (saved_vacancies d) t.

End Models.

(* ================================================================== *)
(** * notifications/services.py                                          *)
(* ================================================================== *)

Module Notifications.
Import ORM Models.

(** The concrete subclasses of the abstract [NotificationObserver]. *)
Inductive ObserverClass : Type :=
| NotificationModelObserver.

(** An observer object.  The classes define no [__eq__], so two
    observers are equal exactly when they are the same object;
    [observer_id] is the object identity. *)
Record NotificationObserver : Type := mk_observer {
  observer_id : nat;
  observer_class : ObserverClass
}.

Definition observer_eqb (a b : NotificationObserver) : bool :=
  Nat.eqb (observer_id a) (observer_id b).

(** [NotificationSubject]: the attribute [_observers]. *)
Record NotificationSubject : Type := mk_subject {
  _observers : list NotificationObserver
}.

(** [__init__]: [self._observers = []] *)
Definition __init__ : NotificationSubject := mk_subject [].

(** [register]: [self._observers.append(observer)] *)
Definition register (observer : NotificationObserver) (self : NotificationSubject)
  : NotificationSubject :=
  mk_subject (_observers self ++ [observer]).

(** [list.remove(x)]: removes the first item equal to [x]; raises
    [ValueError] when there is no such item. *)
Fixpoint list_remove (x : NotificationObserver) (l : list NotificationObserver)
  : result (list NotificationObserver) :=
  match l with
  | [] => Raise ValueError
  | y :: l' =>
      if observer_eqb y x then Ok l'
      else match list_remove x l' with
           | Ok r => Ok (y :: r)
           | Raise e => Raise e
           end
  end.

(** [unregister]: [self._observers.remove(observer)].  On [Raise] the
    subject is left as it was. *)
Definition unregister (observer : NotificationObserver) (self : NotificationSubject)
  : result NotificationSubject :=
  match list_remove observer (_observers self) with
  | Ok l => Ok (mk_subject l)
  | Raise e => Raise e
  end.

(** [observer.notify(user, message)], by class.
    [NotificationModelObserver]:
    [Notification.objects.create(user=user, message=message)]. *)
Definition observer_notify (o : NotificationObserver) (user : User) (msg : string)
           (d : Database) : Database :=
  match observer_class o with
  | NotificationModelObserver =>
      let '(_, t) :=
        create (fun k => mk_Notification k (user_id user) msg false) (notifications d) in
      with_notifications t d
  end.

(** [notify]: [for observer in self._observers: observer.notify(user, message)] *)
Definition notify (self : NotificationSubject) (user : User) (msg : string)
           (d : Database) : Database :=
  fold_left (fun d' o => observer_notify o user msg d') (_observers self) d.

(** The module-level instance:
<<
    notification_subject = NotificationSubject()
    notification_subject.register(NotificationModelObserver())
>> *)
Definition notification_subject : NotificationSubject :=
  register (mk_observer 0 NotificationModelObserver) __init__.

End Notifications.

(* ================================================================== *)
(** * The Django boundary: requests, responses, flash messages           *)
(* ================================================================== *)

Module Django.
Import ORM NumPy Models Notifications.

(** The handlers only test [request.method == "POST"]; [GET] stands for
    every other method. *)
Inductive Method : Type := GET | POST.

Record UploadedFile : Type := mk_file {
  file_name : string;
  file_content : bytes
}.

(** What a handler reads from [request]: the session key ["user_id"],
    the method, the query string, the form data and the uploads. *)
Record HttpRequest : Type := mk_request {
  session_user_id : option pk;
  method : Method;
  GET_params : list (string * string);
  POST_params : list (string * string);
  FILES : list (string * UploadedFile)
}.

(** [QueryDict.getlist(key)]: the values submitted under [key], in order. *)
Definition qgetlist {V} (key : string) (d : list (string * V)) : list V :=
  map snd (List.filter (fun kv => String.eqb (fst kv) key) d).

(** [QueryDict.get(key)]: the last value submitted under [key]. *)
Definition qget {V} (key : string) (d : list (string * V)) : option V :=
  List.last (map Some (qgetlist key d)) None.

(** One row of the batch ranking: [{"filename", "cv_text", "score"}]. *)
Record RankingEntry : Type := mk_entry {
  entry_filename : string;
  entry_cv_text : string;
  entry_score : float
}.

Inductive ContextValue : Type :=
| CtxUser (u : User)
| CtxText (t : string)
| CtxCount (n : nat)
| CtxForm
| CtxVacancy (v : Vacancy)
| CtxVacancies (vs : list Vacancy)
| CtxResumes (rs : list Resume)
| CtxApplied (applied : list Applied_resume)
| CtxSaved (saved : list Saved_vacancy)
| CtxMapping (mapping : list (Vacancy * list Applied_resume))
| CtxNotifications (ns : list Notification)
| CtxRanking (ranking : list RankingEntry)
| CtxBest (best_cv : option RankingEntry).

(** What a handler does to the session: leaves it, stores ["user_id"]
    and ["role"], or flushes it. *)
Inductive SessionEffect : Type :=
| SessionKept
| SessionSet (user_id : pk) (role : string)
| SessionFlushed.

(** The documents produced by the rendering helpers, by format; the
    payload is the text handed to the external generator. *)
Inductive Document : Type :=
| PdfDocument (text : string)
| DocxDocument (text : string)
| TxtDocument (text : string).

Inductive HttpResponse : Type :=
| redirect (to : string)
| redirect_with (to : string) (arg : pk)
| render (template : string) (context : list (string * ContextValue))
| attachment (filename : string) (body : Document).

Inductive Level : Type := SUCCESS | WARNING | ERROR.

(** The server state a handler runs against: the database, the
    process-wide notification subject, and the flash messages raised so
    far (most recent last). *)
Record World : Type := mk_world {
  db : Database;
  subject : NotificationSubject;
  flash : list (Level * string)
}.

Definition initial_world : World :=
  mk_world empty_database notification_subject [].

(** Handler computations: state passing with exceptions.  A raised
    exception keeps the writes made before it (no transaction wraps a
    request). *)
Definition M (A : Type) : Type := World -> result A * World.

Definition ret {A} (a : A) : M A := fun w => (Ok a, w).

Definition bind {A B} (m : M A) (k : A -> M B) : M B :=
  fun w => match m w with
           | (Ok a, w') => k a w'
           | (Raise e, w') => (Raise e, w')
           end.

Definition lift {A} (r : result A) : M A := fun w => (r, w).

Definition query {A} (q : Database -> A) : M A := fun w => (Ok (q (db w)), w).

Definition write (f : Database -> Database) : M unit :=
  fun w => (Ok tt, mk_world (f (db w)) (subject w) (flash w)).

Definition messages_add (l : Level) (text : string) : M unit :=
  fun w => (Ok tt, mk_world (db w) (subject w) (flash w ++ [(l, text)])).

(** [notification_subject.notify(user, message)] *)
Definition subject_notify (user : User) (msg : string) : M unit :=
  fun w => (Ok tt, mk_world (notify (subject w) user msg (db w)) (subject w) (flash w)).

End Django.

Declare Scope view_scope.
Delimit Scope view_scope with view.
Notation "x <- m ;; k" := (Django.bind m (fun x => k))
  (at level 61, m at next level, right associativity) : view_scope.
Notation "m ;;; k" := (Django.bind m (fun _ => k))
  (at level 61, right associativity) : view_scope.

(* ================================================================== *)
(** * The process environment: settings and external services           *)
(* ================================================================== *)

Module Env.
Import ORM NumPy Django.

(** Everything the handlers obtain from outside the repository.  The
    form classes of CVapp/forms.py are not part of the sources; like the
    Django validation of the forms that are, they are taken as
    functions from the request to the cleaned data ([None]: the form is
    not valid). *)
(** The fields of [SignupForm.Meta.fields]. *)
Record SignupData : Type := mk_signup {
  signup_username : string;
  signup_first_name : string;
  signup_last_name : string;
  signup_email : string;
  signup_password : string;
  signup_role : string;
  signup_profile_image : option string;
  signup_linkedin_id : option string
}.

Record Environment : Type := mk_env {
  (** [settings.OPENAI_API_KEY]: [None] when the setting is not
      defined, [Some None] when it is defined as [None]. *)
  OPENAI_API_KEY : option (option string);
  (** whether [from openai import OpenAI] succeeds *)
  openai_installed : bool;
  (** [OpenAI(api_key=k).embeddings.create(input=[text], ...)]:
      the float32 patterns of [response.data[0].embedding] *)
  openai_embeddings_create : string -> string -> result (list Z);
  (** [OpenAI(api_key=k).chat.completions.create(...)]:
      [response.choices[0].message.content] *)
  openai_chat_completions_create : option string -> string -> result (option string);
  (** [np.random.default_rng(abs(hash(text)) % 2**32).random(n, dtype=np.float32)[i]] *)
  mock_rng_random : string -> nat -> Z;
  (** [PyPDF2.PdfReader]: per page, the result of [extract_text()];
      [None] when PyPDF2 is not installed *)
  PdfReader : option (bytes -> result (list (option string)));
  (** [bytes.decode("utf-8")] *)
  decode_utf8 : bytes -> result string;
  (** CVapp/forms.py [UploadFileForm]: cleaned [vacancy], [cv_text] *)
  UploadFileForm : HttpRequest -> option (string * string);
  (** CVapp/forms.py [SelectOutputFormat]: cleaned [outputFormat] *)
  SelectOutputFormat : HttpRequest -> option string;
  (** offer/forms.py [UploadFileFormOffer]: [is_valid()] *)
  UploadFileFormOffer : HttpRequest -> bool;
  (** offer/forms.py [UploadVacancyForm]: cleaned [title],
      [description], [requirements] *)
  UploadVacancyForm : HttpRequest -> option (string * string * string);
  (** users/forms.py [LoginForm]: cleaned [username], [password] *)
  LoginForm : HttpRequest -> option (string * string);
  (** users/forms.py [SignupForm]: the cleaned fields, before the
      uniqueness checks against the store *)
  SignupForm : HttpRequest -> option SignupData;
  (** [django.contrib.auth.hashers] *)
  make_password : string -> string;
  check_password : string -> string -> bool
}.

End Env.

(* ================================================================== *)
(** * CVapp/services.py, continued: strategies and embedding services    *)
(* ================================================================== *)

Module Strategies.
Import NumPy Django Env Services.

(** [x or ""] *)
Definition or_empty (x : option string) : string :=
  match x with Some s => s | None => EmptyString end.

(** [strategy.extract(file)] *)
Definition extract (env : Environment) (strategy : FileExtractionStrategy)
           (file : UploadedFile) : result string :=
  match strategy with
  | PdfExtractionStrategy =>
      match PdfReader env with
      | None => Raise RuntimeError
      | Some reader =>
          (pages <- reader (file_content file) ;;
           Ok (String.concat EmptyString (map or_empty pages)))%result
      end
  | TextExtractionStrategy => decode_utf8 env (file_content file)
  end.

Inductive EmbeddingService : Type :=
| OpenAIEmbeddingService (api_key : string)
| MockEmbeddingService (dimension : nat).

(** [MockEmbeddingService()]: [dimension: int = 1536] *)
Definition MockEmbeddingService_default : EmbeddingService := MockEmbeddingService 1536.

(** The module-level selection (the same in CVapp/views.py and
    offer/views.py):
<<
    try:
        if getattr(settings, "OPENAI_API_KEY", None):
            _embedding_service = OpenAIEmbeddingService(settings.OPENAI_API_KEY)
        else:
            raise AttributeError
    except Exception:
        _embedding_service = MockEmbeddingService()
>>   [OpenAIEmbeddingService.__init__] raises when the package is missing. *)
Definition _embedding_service (env : Environment) : EmbeddingService :=
  match OPENAI_API_KEY env with
  | Some (Some key) =>
      if PyStr.truthy key then
        if openai_installed env then OpenAIEmbeddingService key
        else MockEmbeddingService_default
      else MockEmbeddingService_default
  | _ => MockEmbeddingService_default
  end.

(** [service.embed(text)]: always a float32 array. *)
Definition embed_with (env : Environment) (service : EmbeddingService) (text : string)
  : result ndarray :=
  match service with
  | OpenAIEmbeddingService key =>
      (ws <- openai_embeddings_create env key text ;; Ok (mk_ndarray float32 ws))%result
  | MockEmbeddingService dimension =>
      Ok (mk_ndarray float32 (map (mock_rng_random env text) (seq 0 dimension)))
  end.

(** [_embedding_service.embed(text)] *)
Definition embed (env : Environment) (text : string) : result ndarray :=
  embed_with env (_embedding_service env) text.

(** [cosine_similarity] applied to two arrays.  The elements enter
    with their exact values; for float32 arrays NumPy rounds the
    intermediate results to single precision, here they are those of
    binary64.  No statement depends on the value of a float32 similarity
    except where all operations are exact. *)
Definition similarity (a b : ndarray) : result float :=
  cosine_similarity (values a) (values b).

End Strategies.

(* ================================================================== *)
(** * Query helpers shared by the views                                  *)
(* ================================================================== *)

Module Lookups.
Import ORM NumPy Models Django.
Local Open Scope view_scope.

(** Decimal digits of a key passed as text. *)
Fixpoint digits_acc (acc : nat) (s : string) : option nat :=
  match s with
  | EmptyString => Some acc
  | String c r =>
      let n := nat_of_ascii c in
      if ((48 <=? n) && (n <=? 57))%nat then digits_acc (10 * acc + (n - 48)) r
      else None
  end.

(** The conversion applied to the value of an [id=] lookup:
    [int(value)].  A missing value ([None]) and a negative number match
    no row; text that is not a number raises [ValueError]. *)
Definition id_lookup (value : option string) : result (option pk) :=
  match value with
  | None => Ok None
  | Some s =>
      match PyStr.strip s with
      | EmptyString => Raise ValueError
      | String "-" r =>
          match r with
          | EmptyString => Raise ValueError
          | _ => match digits_acc 0 r with Some _ => Ok None | None => Raise ValueError end
          end
      | String "+" r =>
          match r with
          | EmptyString => Raise ValueError
          | _ => match digits_acc 0 r with Some n => Ok (Some n) | None => Raise ValueError end
          end
      | t => match digits_acc 0 t with Some n => Ok (Some n) | None => Raise ValueError end
      end
  end.

Definition matches_id (k : option pk) (id : pk) : bool :=
  match k with Some n => Nat.eqb id n | None => false end.

(** [User.objects.get(id=request.session["user_id"])] *)
Definition get_user (uid : pk) : M User :=
  fun w => (get (has_pk uid) (users (db w)), w).

(** [Vacancy.objects.get(id=vacancy_id)] *)
Definition get_vacancy (vid : pk) : M Vacancy :=
  fun w => (get (has_pk vid) (vacancies (db w)), w).

(** [Resume.objects.get(id=...)], also the access [applied.resume] *)
Definition get_resume (rid : pk) : M Resume :=
  fun w => (get (has_pk rid) (resumes (db w)), w).

(** [Applied_resume.objects.get(id=resume_id)] *)
Definition get_applied (aid : pk) : M Applied_resume :=
  fun w => (get (has_pk aid) (applied_resumes (db w)), w).

Definition owned_by (user : User) (r : Resume) : bool :=
  Nat.eqb (resume_uploaded_by r) (user_id user).

(** [Applied_resume.objects.filter(resume=resume, vacancy=vacancy)] *)
Definition applied_for (resume : Resume) (vacancy : Vacancy) (a : Applied_resume) : bool :=
  Nat.eqb (applied_resume_fk a) (resume_id resume)
  && Nat.eqb (applied_vacancy_fk a) (vacancy_id vacancy).

(** [Applied_resume.objects.filter(resume=resume)] *)
Definition applied_with (resume : Resume) (a : Applied_resume) : bool :=
  Nat.eqb (applied_resume_fk a) (resume_id resume).

Definition save_resume (r : Resume) : M unit :=
  write (fun d => with_resumes (save r (resumes d)) d).

Definition save_vacancy_row (v : Vacancy) : M unit :=
  write (fun d => with_vacancies (save v (vacancies d)) d).

Definition save_applied (a : Applied_resume) : M unit :=
  write (fun d => with_applied_resumes (save a (applied_resumes d)) d).

End Lookups.

(* ================================================================== *)
(** * CVapp/views.py                                                     *)
(* ================================================================== *)

Module CVappViews.
Import ORM NumPy Models Notifications Django Env Services Strategies Lookups.
Local Open Scope view_scope.

(** [bool(uploaded_file)] for the result of [request.FILES.get(...)]:
    a file object is true when its name is not empty. *)
Definition file_truthy (f : option UploadedFile) : option UploadedFile :=
  match f with
  | Some u => if PyStr.truthy (file_name u) then Some u else None
  | None => None
  end.

(** [str(x)] inside an f-string for a nullable text field. *)
Definition fmt_nullable (x : option string) : string :=
  match x with Some s => s | None => "None" end.

Definition NL : string := String (ascii_of_nat 10) EmptyString.

(** [home] *)
Definition home (request : HttpRequest) : M HttpResponse :=
  match session_user_id request with
  | Some uid =>
      user <- get_user uid ;;
      if String.eqb (role user) "recruiter" then
        n <- query (fun d =>
               count (fun v => Nat.eqb (vacancy_uploaded_by v) (user_id user)
                               && String.eqb (vacancy_state v) "open") (vacancies d)) ;;
        ret (render "home.html" [("user", CtxUser user); ("open_vacancies_count", CtxCount n)])
      else ret (render "home.html" [("user", CtxUser user)])
  | None => ret (redirect "login")
  end.

(** [feed].  [order_by("-uploaded_at")] is the reverse order of
    creation. *)
Definition feed (request : HttpRequest) : M HttpResponse :=
  match session_user_id request with
  | Some uid =>
      user <- get_user uid ;;
      vs <- query (fun d => rev (filter (fun v => String.eqb (vacancy_state v) "open")
                                        (vacancies d))) ;;
      ret (render "feed.html" [("user", CtxUser user); ("vacancies", CtxVacancies vs)])
  | None => ret (redirect "login")
  end.

(** [uploadCV] *)
Definition uploadCV (env : Environment) (request : HttpRequest) : M HttpResponse :=
  match session_user_id request with
  | None => ret (redirect "login")
  | Some uid =>
      user <- get_user uid ;;
      initial_vacancy <-
        (match qget "vacancy_id" (GET_params request) with
         | Some vacancy_id_param =>
             if PyStr.truthy vacancy_id_param then
               k <- lift (id_lookup (Some vacancy_id_param)) ;;
               found <- query (fun d =>
                          get (fun v => matches_id k (vacancy_id v)) (vacancies d)) ;;
               match found with
               | Ok saved_vacancy =>
                   ret (Some (description saved_vacancy ++ " " ++ NL ++ " "
                              ++ fmt_nullable (requirements saved_vacancy))%string)
               | Raise DoesNotExist => ret None
               | Raise e => lift (Raise e)
               end
             else ret None
         | None => ret None
         end) ;;
      let final :=
        ret (render "JobseekerPage.html"
               [("form", CtxForm); ("user", CtxUser user);
                ("vacancy", CtxText (or_empty initial_vacancy))]) in
      match method request with
      | POST =>
          match UploadFileForm env request with
          | Some (vacancy_text, cv_text) =>
              let uploaded_file := file_truthy (qget "file" (FILES request)) in
              let image := qget "image" (FILES request) in
              let create_from (extracted_text : string) : M HttpResponse :=
                arr <- lift (embed env extracted_text) ;;
                let embedding := tobytes arr in
                write (fun d =>
                  with_resumes
                    (snd (create (fun k =>
                       mk_Resume k "1.0"
                         (match uploaded_file with
                          | Some f => file_name f
                          | None => "Manual Entry"
                          end)
                         vacancy_text extracted_text EmptyString (user_id user)
                         embedding (option_map file_name image))
                       (resumes d))) d) ;;;
                messages_add SUCCESS "CV subido y procesado con éxito" ;;;
                final in
              match uploaded_file with
              | Some f =>
                  extracted_text <-
                    lift (extract env (_get_extraction_strategy (file_name f)) f) ;;
                  create_from extracted_text
              | None =>
                  if PyStr.truthy (PyStr.strip cv_text) then create_from cv_text
                  else
                    messages_add WARNING "No hay un CV inicial" ;;;
                    ret (render "JobseekerPage.html"
                           [("form", CtxForm); ("user", CtxUser user)])
              end
          | None =>
              messages_add ERROR "Formulario no válido" ;;;
              final
          end
      | GET => final
      end
  end.

(** The fixed instruction block that [mejorar_cv] appends to the
    prompt (its opening sentence; the remaining bullet list is constant
    text on which nothing depends). *)
Definition PROMPT_INSTRUCTIONS : string :=
  "Eres un experto en redacción de currículums optimizados para vacantes específicas.".

(** The rendering helpers [_generate_pdf_response],
    [_generate_docx_response], [_generate_txt_response]. *)
Definition _generate_pdf_response (text : string) : HttpResponse :=
  attachment "mejorado_cv.pdf" (PdfDocument text).
Definition _generate_docx_response (text : string) : HttpResponse :=
  attachment "mejorado_cv.docx" (DocxDocument text).
Definition _generate_txt_response (text : string) : HttpResponse :=
  attachment "mejorado_cv.txt" (TxtDocument text).

Definition AI_UNAVAILABLE : string :=
  "No se pudo acceder al servicio de IA, se mostrará el CV original.".

(** The body of the [try:] block of [mejorar_cv]; every way it can
    fail raises an [Exception]:
<<
    from openai import OpenAI
    client = OpenAI(api_key=settings.OPENAI_API_KEY)
    response = client.chat.completions.create(model="gpt-3.5-turbo", ...)
    new_cv = response.choices[0].message.content.strip()
>> *)
Definition hosted_rewrite (env : Environment) (prompt : string) : result string :=
  if openai_installed env then
    match OPENAI_API_KEY env with
    | None => Raise AttributeError
    | Some api_key =>
        (content <- openai_chat_completions_create env api_key prompt ;;
         match content with
         | Some text => Ok (PyStr.strip text)
         | None => Raise AttributeError
         end)%result
    end
  else Raise ImportError.

(** The prompt:
<<
    f"VACANTE:\n{vacancy_text}\n\n" f"CV ACTUAL:\n{cv_text}\n\n" <instructions>
>> *)
Definition build_prompt (vacancy_text cv_text : string) : string :=
  ("VACANTE:" ++ NL ++ vacancy_text ++ NL ++ NL
   ++ "CV ACTUAL:" ++ NL ++ cv_text ++ NL ++ NL
   ++ PROMPT_INSTRUCTIONS)%string.

(** [mejorar_cv] *)
Definition mejorar_cv (env : Environment) (request : HttpRequest) : M HttpResponse :=
  match session_user_id request with
  | None => ret (redirect "login")
  | Some uid =>
      user <- get_user uid ;;
      found <- query (fun d => last (owned_by user) (resumes d)) ;;
      match found with
      | None =>
          messages_add ERROR "No has subido un CV aún." ;;;
          ret (redirect "upload_cv")
      | Some resume =>
          let vacancy_text := vacancy_text resume in
          let cv_text := extracted_text resume in
          let prompt := build_prompt vacancy_text cv_text in
          new_cv <-
            (match hosted_rewrite env prompt with
             | Ok text => ret text
             | Raise _ =>
                 (* except Exception: *)
                 messages_add WARNING AI_UNAVAILABLE ;;;
                 ret cv_text
             end) ;;
          let resume := set_upgraded_cv new_cv resume in
          save_resume resume ;;;
          let page := ret (render "jobseekerPage.html" [("form", CtxForm)]) in
          match method request with
          | POST =>
              match SelectOutputFormat env request with
              | Some format_selected =>
                  if String.eqb format_selected "pdf" then
                    ret (_generate_pdf_response (upgraded_cv resume))
                  else if String.eqb format_selected "docx" then
                    ret (_generate_docx_response (upgraded_cv resume))
                  else if String.eqb format_selected "txt" then
                    ret (_generate_txt_response (upgraded_cv resume))
                  else page
              | None => page
              end
          | GET => page
          end
      end
  end.

(** The first [if/else] of the "compute embeddings if missing" block
    of [apply_vacancy]:
<<
    if resume.embedding:
        resume_emb = np.frombuffer(resume.embedding, dtype=np.float32)
    else:
        resume_emb = _embedding_service.embed(resume.extracted_text)
        resume.embedding = resume_emb.tobytes()
        resume.save()
>> *)
Definition resume_embedding_or_backfill (env : Environment) (resume : Resume) : M ndarray :=
  if truthy (resume_embedding resume) then
    lift (frombuffer_float32 (resume_embedding resume))
  else
    resume_emb <- lift (embed env (extracted_text resume)) ;;
    save_resume (set_resume_embedding (tobytes resume_emb) resume) ;;;
    ret resume_emb.

(** The second [if/else]:
<<
    if vacancy.embedding:
        vacancy_emb = np.frombuffer(vacancy.embedding, dtype=np.float32)
    else:
        combined = vacancy.description + " " + vacancy.requirements
        vacancy_emb = _embedding_service.embed(combined)
        vacancy.embedding = vacancy_emb.tobytes()
        vacancy.save()
>> *)
Definition vacancy_embedding_or_backfill (env : Environment) (vacancy : Vacancy) : M ndarray :=
  if truthy (vacancy_embedding vacancy) then
    lift (frombuffer_float32 (vacancy_embedding vacancy))
  else
    match requirements vacancy with
    | None => lift (Raise TypeError)
    | Some reqs =>
        let combined := (description vacancy ++ " " ++ reqs)%string in
        vacancy_emb <- lift (embed env combined) ;;
        save_vacancy_row (set_vacancy_embedding (tobytes vacancy_emb) vacancy) ;;;
        ret vacancy_emb
    end.

Definition ALREADY_APPLIED : string := "Ya has aplicado a esta vacante con este CV".
Definition APPLIED_OK : string := "Has aplicado a la vacante con éxito".

(** [apply_vacancy] *)
Definition apply_vacancy (env : Environment) (request : HttpRequest) (vacancy_id : pk)
  : M HttpResponse :=
  match session_user_id request with
  | None => ret (redirect "login")
  | Some uid =>
      user <- get_user uid ;;
      vacancy <- get_vacancy vacancy_id ;;
      has_resumes <- query (fun d => exists_ (owned_by user) (resumes d)) ;;
      if negb has_resumes then
        messages_add WARNING "No tienes un CV subido" ;;;
        ret (redirect "upload_cv")
      else
        match method request with
        | POST =>
            let selected_resume_id := qget "resume_id" (POST_params request) in
            k <- lift (id_lookup selected_resume_id) ;;
            found <- query (fun d =>
                       first (fun r => owned_by user r && matches_id k (resume_id r))
                             (resumes d)) ;;
            match found with
            | None =>
                messages_add ERROR "Debes seleccionar un CV válido." ;;;
                ret (redirect_with "apply" vacancy_id)
            | Some resume =>
                resume_emb <- resume_embedding_or_backfill env resume ;;
                vacancy_emb <- vacancy_embedding_or_backfill env vacancy ;;
                match_ <- lift (similarity resume_emb vacancy_emb) ;;
                duplicate <- query (fun d =>
                               exists_ (applied_for resume vacancy) (applied_resumes d)) ;;
                if duplicate then
                  messages_add WARNING ALREADY_APPLIED ;;;
                  ret (redirect "feed")
                else
                  write (fun d =>
                    with_applied_resumes
                      (snd (create (fun k =>
                         mk_Applied_resume k (resume_id resume) (Models.vacancy_id vacancy)
                           match_ Applied_resume_state_default None)
                         (applied_resumes d))) d) ;;;
                  messages_add SUCCESS APPLIED_OK ;;;
                  ret (redirect "feed")
            end
        | GET =>
            rs <- query (fun d => filter (owned_by user) (resumes d)) ;;
            ret (render "select_resume.html"
                   [("vacancy", CtxVacancy vacancy); ("resumes", CtxResumes rs);
                    ("user", CtxUser user)])
        end
  end.

(** [delete_cv].  [on_delete=CASCADE] removes the applications that
    reference the deleted résumé. *)
Definition delete_cv (request : HttpRequest) (cv_id : pk) : M HttpResponse :=
  match session_user_id request with
  | None => ret (redirect "login")
  | Some uid =>
      user <- get_user uid ;;
      resume <- (fun w => (get (fun r => has_pk cv_id r && owned_by user r)
                               (resumes (db w)), w)) ;;
      used <- query (fun d => exists_ (applied_with resume) (applied_resumes d)) ;;
      if used then
        messages_add WARNING
          "No puedes eliminar un CV que ya has usado para aplicar a una vacante" ;;;
        ret (redirect "history")
      else
        write (fun d =>
          with_resumes (delete resume (resumes d))
            (with_applied_resumes
               (mk_table (List.filter (fun a => negb (applied_with resume a))
                                      (rows (applied_resumes d)))
                         (last_pk (applied_resumes d))) d)) ;;;
        messages_add SUCCESS "CV eliminado con éxito" ;;;
        ret (redirect "history")
  end.

(** [unsave_vacancy] *)
Definition unsave_vacancy (request : HttpRequest) (vacancy_id : pk) : M HttpResponse :=
  match session_user_id request with
  | None => ret (redirect "login")
  | Some uid =>
      user <- get_user uid ;;
      found <- query (fun d =>
                 get (fun s => Nat.eqb (saved_user_fk s) (user_id user) && has_pk vacancy_id s)
                     (saved_vacancies d)) ;;
      match found with
      | Ok saved_vacancy =>
          write (fun d => with_saved_vacancies (delete saved_vacancy (saved_vacancies d)) d) ;;;
          messages_add SUCCESS "Vacante eliminada de favoritos" ;;;
          ret (redirect "history")
      | Raise DoesNotExist =>
          messages_add WARNING "No has guardado esta vacante" ;;;
          ret (redirect "history")
      | Raise e => lift (Raise e)
      end
  end.

(** [save_vacancy] *)
Definition save_vacancy (request : HttpRequest) (vacancy_id : pk) : M HttpResponse :=
  match session_user_id request with
  | None => ret (redirect "login")
  | Some uid =>
      user <- get_user uid ;;
      vacancy <- get_vacancy vacancy_id ;;
      saved <- query (fun d =>
                 exists_ (fun s => Nat.eqb (saved_user_fk s) (user_id user)
                                   && Nat.eqb (saved_vacancy_fk s) (Models.vacancy_id vacancy))
                         (saved_vacancies d)) ;;
      if saved then
        messages_add WARNING "Ya has guardado esta vacante" ;;;
        ret (redirect "feed")
      else
        write (fun d =>
          with_saved_vacancies
            (snd (create (fun k => mk_Saved_vacancy k (user_id user) (Models.vacancy_id vacancy))
                         (saved_vacancies d))) d) ;;;
        messages_add SUCCESS "Vacante guardada con éxito" ;;;
        ret (redirect "feed")
  end.

(** [Applied_resume.objects.filter(vacancy=vacancy, resume__uploaded_by=user)] *)
Definition applied_to_by (vacancy : Vacancy) (user : User) (d : Database)
           (a : Applied_resume) : bool :=
  Nat.eqb (applied_vacancy_fk a) (Models.vacancy_id vacancy)
  && exists_ (fun r => has_pk (applied_resume_fk a) r && owned_by user r) (resumes d).

(** [redirect_to_cv_inprover].  The final redirect carries the vacancy
    id in the query string. *)
Definition redirect_to_cv_inprover (request : HttpRequest) (vacancy_id : pk) (origin : string)
  : M HttpResponse :=
  match session_user_id request with
  | None => ret (redirect "login")
  | Some uid =>
      user <- get_user uid ;;
      found <- query (fun d =>
                 if String.eqb origin "saved" then
                   match first (has_pk vacancy_id) (saved_vacancies d) with
                   | Some saved_vacancy =>
                       first (has_pk (saved_vacancy_fk saved_vacancy)) (vacancies d)
                   | None => None
                   end
                 else if String.eqb origin "published" then
                   first (has_pk vacancy_id) (vacancies d)
                 else None) ;;
      match found with
      | None =>
          messages_add ERROR "No se encontró la vacante" ;;;
          ret (redirect "feed")
      | Some vacancy =>
          applied <- query (fun d => exists_ (applied_to_by vacancy user d) (applied_resumes d)) ;;
          if applied && String.eqb origin "saved" then
            messages_add WARNING "Ya has aplicado a esta vacante" ;;;
            ret (redirect "feed")
          else ret (redirect_with "/upload_cv/?vacancy_id=" (Models.vacancy_id vacancy))
      end
  end.

End CVappViews.

(* ================================================================== *)
(** * offer/views.py                                                     *)
(* ================================================================== *)

Module OfferViews.
Import ORM NumPy Models Notifications Django Env Services Strategies Lookups.
Local Open Scope view_scope.

(** The loop state of [uploadCVS]: [ranking], [best_cv], [best_score]. *)
Record Tally : Type := mk_tally {
  ranking : list RankingEntry;
  best_cv : option RankingEntry;
  best_score : float
}.

(** [best_cv = None; best_score = -1.0; ranking = []] *)
Definition tally_init : Tally := mk_tally [] None (-1)%float.

(** The first half of the loop body: the entry computed for one file.
<<
    strategy = _get_extraction_strategy(uploaded_file.name)
    cv_text = strategy.extract(uploaded_file)
    cv_embedding = _embedding_service.embed(cv_text)
    score = cosine_similarity(vacancy_embedding, cv_embedding)
>> *)
Definition score_file (env : Environment) (vacancy_embedding : ndarray)
           (uploaded_file : UploadedFile) : result RankingEntry :=
  (let strategy := _get_extraction_strategy (file_name uploaded_file) in
   cv_text <- extract env strategy uploaded_file ;;
   cv_embedding <- embed env cv_text ;;
   score <- similarity vacancy_embedding cv_embedding ;;
   Ok (mk_entry (file_name uploaded_file) cv_text score))%result.

(** The second half:
<<
    ranking.append({...})
    if score > best_score:
        best_score = score
        best_cv = {...}
>> *)
Definition tally_step (t : Tally) (entry : RankingEntry) : Tally :=
  let ranking' := ranking t ++ [entry] in
  if (best_score t <? entry_score entry)%float
  then mk_tally ranking' (Some entry) (entry_score entry)
  else mk_tally ranking' (best_cv t) (best_score t).

(** [for uploaded_file in files: ...] *)
Fixpoint for_each_file (env : Environment) (vacancy_embedding : ndarray)
         (files : list UploadedFile) (t : Tally) : result Tally :=
  match files with
  | [] => Ok t
  | uploaded_file :: rest =>
      (entry <- score_file env vacancy_embedding uploaded_file ;;
       for_each_file env vacancy_embedding rest (tally_step t entry))%result
  end.

(** [ranking.sort(key=lambda x: x["score"], reverse=True)].  The sort
    is stable, also under [reverse=True], and compares keys with [<]
    only; on keys that [<] orders totally its result is the one stable
    descending arrangement, which insertion from the right computes. *)
Fixpoint insert_desc (e : RankingEntry) (sorted : list RankingEntry) : list RankingEntry :=
  match sorted with
  | [] => [e]
  | x :: rest =>
      if (entry_score e <? entry_score x)%float then x :: insert_desc e rest
      else e :: sorted
  end.

Definition sort_desc (l : list RankingEntry) : list RankingEntry :=
  fold_right insert_desc [] l.

(** What the handler shows for a list of computed entries. *)
Definition rank (entries : list RankingEntry) : list RankingEntry * option RankingEntry :=
  let t := fold_left tally_step entries tally_init in
  (sort_desc (ranking t), best_cv t).

(** [uploadCVS] *)
Definition uploadCVS (env : Environment) (request : HttpRequest) : M HttpResponse :=
  match session_user_id request with
  | None => ret (redirect "login")
  | Some uid =>
      user <- get_user uid ;;
      let page := ret (render "matchingPage.html" [("form", CtxForm); ("user", CtxUser user)]) in
      match method request with
      | POST =>
          if UploadFileFormOffer env request
             && match FILES request with [] => false | _ => true end then
            let vacancy_text := or_empty (qget "vacancy" (POST_params request)) in
            let files := qgetlist "file" (FILES request) in
            if negb (PyStr.truthy (PyStr.strip vacancy_text)) then
              messages_add WARNING "No hay un texto de vacante proporcionado." ;;;
              page
            else
              match files with
              | [] =>
                  messages_add WARNING "No se seleccionaron archivos." ;;;
                  page
              | _ =>
                  vacancy_embedding <- lift (embed env vacancy_text) ;;
                  t <- lift (for_each_file env vacancy_embedding files tally_init) ;;
                  let ranking := sort_desc (ranking t) in
                  messages_add SUCCESS "Todos los archivos fueron procesados correctamente." ;;;
                  ret (render "matchingPage.html"
                         [("form", CtxForm); ("user", CtxUser user);
                          ("ranking", CtxRanking ranking);
                          ("best_cv", CtxBest (best_cv t));
                          ("vacancy", CtxText vacancy_text)])
              end
          else
            messages_add WARNING "Error en la carga del formulario." ;;;
            page
      | GET => page
      end
  end.

(** [upload_vacancies] *)
Definition upload_vacancies (env : Environment) (request : HttpRequest) : M HttpResponse :=
  match session_user_id request with
  | None => ret (redirect "login")
  | Some uid =>
      user <- get_user uid ;;
      let page := ret (render "offer.html" [("form", CtxForm); ("user", CtxUser user)]) in
      match method request with
      | POST =>
          match UploadVacancyForm env request with
          | Some (title, description, requirements) =>
              let extracted_text := PyStr.strip (description ++ " " ++ requirements)%string in
              arr <- lift (embed env extracted_text) ;;
              let embedding := tobytes arr in
              write (fun d =>
                with_vacancies
                  (snd (create (fun k =>
                     mk_Vacancy k title description (Some requirements)
                                Vacancy_state_default (user_id user) embedding)
                     (vacancies d))) d) ;;;
              messages_add SUCCESS "Vacante subida con éxito." ;;;
              ret (redirect "history")
          | None =>
              messages_add WARNING "Error al subir la vacante." ;;;
              page
          end
      | GET => page
      end
  end.

(** [change_state_vacancy] *)
Definition change_state_vacancy (request : HttpRequest) (vacancy_id : pk) : M HttpResponse :=
  match session_user_id request with
  | None => ret (redirect "login")
  | Some uid =>
      vacancy <- get_vacancy vacancy_id ;;
      owner <- get_user (vacancy_uploaded_by vacancy) ;;
      if negb (Nat.eqb (user_id owner) uid) then
        messages_add ERROR "No tienes permiso para cambiar el estado de esta vacante." ;;;
        ret (redirect "history")
      else if String.eqb (vacancy_state vacancy) "open" then
        save_vacancy_row (set_vacancy_state "closed" vacancy) ;;;
        messages_add SUCCESS "Vacante cerrada con éxito." ;;;
        ret (redirect "history")
      else if String.eqb (vacancy_state vacancy) "closed" then
        save_vacancy_row (set_vacancy_state "open" vacancy) ;;;
        messages_add SUCCESS "Vacante abierta con éxito." ;;;
        ret (redirect "history")
      else ret (redirect "history")
  end.

Definition ALREADY_PROCESSED : string := "Este CV ya ha sido procesado.".

(** The common shape of [accept_resume] and [reject_resume]; they
    differ in the target state and in the three message texts. *)
Definition decide (new_state denied notice_tail done : string)
           (request : HttpRequest) (resume_id : pk) : M HttpResponse :=
  match session_user_id request with
  | None => ret (redirect "login")
  | Some uid =>
      user <- get_user uid ;;
      resume <- get_applied resume_id ;;
      vacancy <- get_vacancy (applied_vacancy_fk resume) ;;
      owner <- get_user (vacancy_uploaded_by vacancy) ;;
      if negb (Nat.eqb (user_id owner) (user_id user)) then
        messages_add ERROR denied ;;;
        ret (redirect "history")
      else if negb (String.eqb (applied_state resume) "applied") then
        messages_add ERROR ALREADY_PROCESSED ;;;
        ret (redirect "history")
      else
        let resume := set_applied_state new_state resume in
        save_applied resume ;;;
        cv <- get_resume (applied_resume_fk resume) ;;
        candidate <- get_user (resume_uploaded_by cv) ;;
        subject_notify candidate
          ("Tu CV para la vacante '" ++ title vacancy ++ "' ha sido " ++ notice_tail)%string ;;;
        messages_add SUCCESS done ;;;
        ret (redirect "history")
  end.

(** [accept_resume] *)
Definition accept_resume : HttpRequest -> pk -> M HttpResponse :=
  decide "accepted" "No tienes permiso para aceptar este CV."
         "aceptado. Nos pondremos en contacto contigo pronto."
         "CV aceptado con éxito.".

(** [reject_resume] *)
Definition reject_resume : HttpRequest -> pk -> M HttpResponse :=
  decide "rejected" "No tienes permiso para rechazar este CV."
         "rechazado. ¡Gracias por participar!"
         "CV rechazado con éxito.".

End OfferViews.

(* ================================================================== *)
(** * users/views.py                                                     *)
(* ================================================================== *)

Module UsersViews.
Import ORM NumPy Models Notifications Django Env Lookups.
Local Open Scope view_scope.

Definition save_user (u : User) : M unit :=
  write (fun d => with_users (save u (users d)) d).

(** [FormView]: a GET, or a POST whose form is not valid, shows the form. *)
Definition form_invalid (template : string) : M (HttpResponse * SessionEffect) :=
  ret (render template [("form", CtxForm)], SessionKept).

(** [LoginView.form_valid] *)
Definition LoginView_form_valid (env : Environment) (username_ password_ : string)
  : M (HttpResponse * SessionEffect) :=
  found <- query (fun d => get (fun u => String.eqb (username u) username_) (users d)) ;;
  match found with
  | Raise DoesNotExist =>
      messages_add ERROR "Usuario no encontrado." ;;;
      form_invalid "loginPage.html"
  | Raise e => lift (Raise e)
  | Ok user =>
      if negb (check_password env password_ (password user)) then
        messages_add ERROR "Contraseña incorrecta." ;;;
        form_invalid "loginPage.html"
      else
        save_user (set_is_authenticated true user) ;;;
        ret (redirect "home", SessionSet (user_id user) (role user))
  end.

(** [LoginView] *)
Definition LoginView (env : Environment) (request : HttpRequest)
  : M (HttpResponse * SessionEffect) :=
  match method request with
  | GET => form_invalid "loginPage.html"
  | POST =>
      match LoginForm env request with
      | Some (username_, password_) => LoginView_form_valid env username_ password_
      | None => form_invalid "loginPage.html"
      end
  end.

(** [SignupForm.save] followed by [SignupView.form_valid]:
<<
    user = super().save(commit=False)
    user.password = make_password(self.cleaned_data["password"])
    user.save()
    ...
    self.request.session["user_id"] = user.id
    self.request.session["role"] = user.role
    user.is_authenticated = True
    user.save()
>> *)
Definition SignupView_form_valid (env : Environment) (data : SignupData)
  : M (HttpResponse * SessionEffect) :=
  user <- (fun w =>
             let '(u, t) :=
               create (fun k =>
                         mk_User k (signup_username data) (signup_first_name data)
                                 (signup_last_name data) (signup_email data)
                                 (make_password env (signup_password data))
                                 (signup_profile_image data) false
                                 (signup_linkedin_id data) (signup_role data))
                      (users (db w)) in
             (Ok u, mk_world (with_users t (db w)) (subject w) (flash w))) ;;
  save_user (set_is_authenticated true user) ;;;
  ret (redirect "home", SessionSet (user_id user) (role user)).

(** [SignupView].  The model form is valid only if the user name and
    the e-mail address are not taken ([unique=True]). *)
Definition SignupView (env : Environment) (request : HttpRequest)
  : M (HttpResponse * SessionEffect) :=
  match method request with
  | GET => form_invalid "signupPage.html"
  | POST =>
      match SignupForm env request with
      | Some data =>
          taken <- query (fun d =>
                     exists_ (fun u => String.eqb (username u) (signup_username data)
                                       || String.eqb (email u) (signup_email data))
                             (users d)) ;;
          if taken then form_invalid "signupPage.html"
          else SignupView_form_valid env data
      | None => form_invalid "signupPage.html"
      end
  end.

(** [Applied_resume.objects.filter(resume__uploaded_by=user)] *)
Definition applied_by (user : User) (d : Database) (a : Applied_resume) : bool :=
  exists_ (fun r => has_pk (applied_resume_fk a) r && owned_by user r) (resumes d).

(** [HistoryView]: [dispatch], then [get_context_data]. *)
Definition HistoryView (request : HttpRequest) : M HttpResponse :=
  match session_user_id request with
  | None => ret (redirect "login")
  | Some uid =>
      user <- get_user uid ;;
      if String.eqb (role user) "jobseeker" then
        ctx <- query (fun d =>
                 [("user", CtxUser user);
                  ("resumes", CtxResumes (filter (owned_by user) (resumes d)));
                  ("applied_resumes",
                   CtxApplied (filter (applied_by user d) (applied_resumes d)));
                  ("saved_vacancies",
                   CtxSaved (filter (fun s => Nat.eqb (saved_user_fk s) (user_id user))
                                    (saved_vacancies d)))]) ;;
        ret (render "historyPage.html" ctx)
      else
        ctx <- query (fun d =>
                 [("user", CtxUser user);
                  ("vacancies_mapping",
                   CtxMapping
                     (map (fun vacancy =>
                             (vacancy,
                              filter (fun a => Nat.eqb (applied_vacancy_fk a)
                                                       (vacancy_id vacancy))
                                     (applied_resumes d)))
                          (filter (fun v => Nat.eqb (vacancy_uploaded_by v) (user_id user))
                                  (vacancies d))))]) ;;
        ret (render "historyPage.html" ctx)
  end.

(** [logout_view] (also [LogoutView.get] and [LogoutView.post]) *)
Definition logout_view (request : HttpRequest) : M (HttpResponse * SessionEffect) :=
  match session_user_id request with
  | Some uid =>
      found <- query (fun d => get (has_pk uid) (users d)) ;;
      match found with
      | Ok user =>
          save_user (set_is_authenticated false user) ;;;
          ret (redirect "login", SessionFlushed)
      | Raise DoesNotExist => ret (redirect "login", SessionFlushed)
      | Raise e => lift (Raise e)
      end
  | None =>
      messages_add WARNING "No hay un usuario autenticado." ;;;
      ret (redirect "login", SessionKept)
  end.

End UsersViews.

(* ================================================================== *)
(** * notifications/views.py                                             *)
(* ================================================================== *)

Module NotificationViews.
Import ORM NumPy Models Notifications Django Env Lookups.
Local Open Scope view_scope.

(** [notification_list].  [order_by("-created_at")] is the reverse
    order of creation. *)
Definition notification_list (request : HttpRequest) : M HttpResponse :=
  match session_user_id request with
  | None => ret (redirect "login")
  | Some uid =>
      user <- get_user uid ;;
      ns <- query (fun d =>
              rev (filter (fun n => Nat.eqb (notification_user_fk n) (user_id user))
                          (notifications d))) ;;
      ret (render "notifications.html"
             [("notifications", CtxNotifications ns); ("user", CtxUser user)])
  end.

(** [mark_notification_read].  Model instances are equal when their
    keys are. *)
Definition mark_notification_read (request : HttpRequest) (notification_id : pk)
  : M HttpResponse :=
  match session_user_id request with
  | None => ret (redirect "login")
  | Some uid =>
      user <- get_user uid ;;
      found <- query (fun d => get (has_pk notification_id) (notifications d)) ;;
      match found with
      | Raise DoesNotExist => lift (Raise Http404)
      | Raise e => lift (Raise e)
      | Ok notification =>
          owner <- get_user (notification_user_fk notification) ;;
          if negb (Nat.eqb (user_id owner) (user_id user)) then
            messages_add ERROR "No tienes permiso para modificar esta notificación." ;;;
            ret (redirect "notification_list")
          else if negb (read notification) then
            write (fun d =>
              with_notifications (save (set_read true notification) (notifications d)) d) ;;;
            messages_add SUCCESS "Notificación marcada como leída." ;;;
            ret (redirect "notification_list")
          else ret (redirect "notification_list")
      end
  end.

End NotificationViews.

(* ================================================================== *)
(** * The system as a transition system over [World]                     *)
(* ================================================================== *)

Module System.
Import ORM NumPy Models Notifications Django Env Services Strategies Lookups.
Import CVappViews OfferViews UsersViews NotificationViews.

(** The world after a handler has run, and what it answered. *)
Definition run {A} (m : M A) (w : World) : World := snd (m w).
Definition answer {A} (m : M A) (w : World) : result A := fst (m w).


(** One request served: every handler that the URL configuration
    exposes. *)
Inductive step (env : Environment) : World -> World -> Prop :=
| step_home req w : step env w (run (home req) w)
| step_feed req w : step env w (run (feed req) w)
| step_uploadCV req w : step env w (run (uploadCV env req) w)
| step_mejorar_cv req w : step env w (run (mejorar_cv env req) w)
| step_apply_vacancy req vid w : step env w (run (apply_vacancy env req vid) w)
| step_delete_cv req cid w : step env w (run (delete_cv req cid) w)
| step_unsave_vacancy req vid w : step env w (run (unsave_vacancy req vid) w)
| step_save_vacancy req vid w : step env w (run (save_vacancy req vid) w)
| step_redirect_to_cv_inprover req vid origin w :
    step env w (run (redirect_to_cv_inprover req vid origin) w)
| step_uploadCVS req w : step env w (run (uploadCVS env req) w)
| step_upload_vacancies req w : step env w (run (upload_vacancies env req) w)
| step_change_state_vacancy req vid w : step env w (run (change_state_vacancy req vid) w)
| step_accept_resume req rid w : step env w (run (accept_resume req rid) w)
| step_reject_resume req rid w : step env w (run (reject_resume req rid) w)
| step_LoginView req w : step env w (run (LoginView env req) w)
| step_SignupView req w : step env w (run (SignupView env req) w)
| step_HistoryView req w : step env w (run (HistoryView req) w)
| step_logout_view req w : step env w (run (logout_view req) w)
| step_notification_list req w : step env w (run (notification_list req) w)
| step_mark_notification_read req nid w :
    step env w (run (mark_notification_read req nid) w).

Inductive reachable (env : Environment) : World -> Prop :=
| reachable_initial : reachable env initial_world
| reachable_step w w' : reachable env w -> step env w w' -> reachable env w'.

(** Every stored résumé and vacancy carries a blob that satisfies [P]. *)
Definition blobs_satisfy (P : bytes -> Prop) (d : Database) : Prop :=
  Forall (fun r => P (resume_embedding r)) (rows (resumes d))
  /\ Forall (fun v => P (vacancy_embedding v)) (rows (vacancies d)).

(** ... a non-empty blob. *)
Definition embeddings_present : Database -> Prop :=
  blobs_satisfy (fun b => truthy b = true).

(** ... a blob of 1536 float32 elements. *)
Definition embeddings_have_1536 : Database -> Prop :=
  blobs_satisfy (fun b => List.length b = 4 * 1536).

(** The hosted embedding endpoint never answers with an empty vector. *)
Definition hosted_embeddings_nonempty (env : Environment) : Prop :=
  forall key text ws, openai_embeddings_create env key text = Ok ws -> ws <> [].

(** The hosted embedding endpoint answers with 1536 elements. *)
Definition hosted_embeddings_have_1536 (env : Environment) : Prop :=
  forall key text ws,
    openai_embeddings_create env key text = Ok ws -> List.length ws = 1536.




(** Test forms: every field is read from the form data as it is. *)
Definition text_of_bytes (b : bytes) : string :=
  string_of_list_ascii (map (fun x => ascii_of_N (Byte.to_N x)) b).

Definition field (key : string) (request : HttpRequest) : option string :=
  qget key (POST_params request).

Definition test_UploadFileForm (request : HttpRequest) : option (string * string) :=
  match field "vacancy" request with
  | Some v => Some (v, or_empty (field "cv_text" request))
  | None => None
  end.

Definition test_UploadVacancyForm (request : HttpRequest) : option (string * string * string) :=
  match field "title" request, field "description" request with
  | Some t, Some d => Some (t, d, or_empty (field "requirements" request))
  | _, _ => None
  end.

Definition test_LoginForm (request : HttpRequest) : option (string * string) :=
  match field "username" request, field "password" request with
  | Some u, Some p => Some (u, p)
  | _, _ => None
  end.

Definition test_SignupForm (request : HttpRequest) : option SignupData :=
  match field "username" request, field "email" request,
        field "password" request, field "role" request with
  | Some u, Some e, Some p, Some r =>
      Some (mk_signup u (or_empty (field "first_name" request))
                      (or_empty (field "last_name" request)) e p r None None)
  | _, _, _, _ => None
  end.

Definition test_make_password (raw : string) : string := ("pbkdf2$" ++ raw)%string.
Definition test_check_password (raw encoded : string) : bool :=
  String.eqb encoded (test_make_password raw).

(** A test environment without a credential and without a PDF parser;
    text files are decoded byte for byte. *)
Definition offline_env : Environment :=
  mk_env None false
         (fun _ _ => Raise ConnectionError)
         (fun _ _ => Raise OpenAIError)
         (fun _ i => if Nat.eqb i 0 then 0x3F800000%Z else 0%Z)
         None
         (fun b => Ok (text_of_bytes b))
         test_UploadFileForm (field "outputFormat") (fun _ => true)
         test_UploadVacancyForm test_LoginForm test_SignupForm
         test_make_password test_check_password.

(** A hosted environment whose embedding endpoint answers with the
    unit vector [e1], negated for texts that start with "-". *)
Definition unit_vector (text : string) : list Z :=
  (match text with
   | String "-" _ => 0xBF800000%Z
   | _ => 0x3F800000%Z
   end) :: repeat 0%Z 1535.

Definition hosted_env : Environment :=
  mk_env (Some (Some "sk-test")) true
         (fun _ text => Ok (unit_vector text))
         (fun _ _ => Raise ConnectionError)
         (fun _ _ => 0%Z)
         None
         (fun b => Ok (text_of_bytes b))
         test_UploadFileForm (field "outputFormat") (fun _ => true)
         test_UploadVacancyForm test_LoginForm test_SignupForm
         test_make_password test_check_password.

Definition alice : User :=
  mk_User 1 "alice" "Alice" "A" "alice@example.org" "pbkdf2$wonderland" None true None
          "jobseeker".
Definition bob : User :=
  mk_User 2 "bob" "Bob" "B" "bob@example.org" "pbkdf2$builder" None true None "recruiter".

Definition anonymous (m : Method) (post : list (string * string)) : HttpRequest :=
  mk_request None m [] post [].

Definition as_user (uid : pk) (m : Method) (post : list (string * string))
           (files : list (string * UploadedFile)) : HttpRequest :=
  mk_request (Some uid) m [] post files.

Definition signup_alice : HttpRequest :=
  anonymous POST [("username", "alice"); ("first_name", "Alice"); ("last_name", "A");
                  ("email", "alice@example.org"); ("password", "wonderland");
                  ("role", "jobseeker")].

Definition signup_bob : HttpRequest :=
  anonymous POST [("username", "bob"); ("first_name", "Bob"); ("last_name", "B");
                  ("email", "bob@example.org"); ("password", "builder");
                  ("role", "recruiter")].

Definition post_vacancy : HttpRequest :=
  as_user 2 POST [("title", "Backend"); ("description", "Backend engineer needed");
                  ("requirements", "Python")] [].

Definition upload_manual_cv : HttpRequest :=
  as_user 1 POST [("vacancy", "Backend engineer needed");
                  ("cv_text", "Experienced backend engineer")] [].

(** A CV whose text starts with "-", and the ranking request that
    uploads it against the vacancy text "dev". *)
Definition opposite_cv : UploadedFile := mk_file "-a.txt" [Byte.x2d; Byte.x61].

Definition ranking_request : HttpRequest :=
  as_user 2 POST [("vacancy", "dev")] [("file", opposite_cv)].

(** Three entries with the scores 0.9, 0.3 and 0.6 (as binary64). *)
Definition entry_09 : RankingEntry := mk_entry "a.txt" "a" 0x1.ccccccccccccdp-1%float.
Definition entry_03 : RankingEntry := mk_entry "b.txt" "b" 0x1.3333333333333p-2%float.
Definition entry_06 : RankingEntry := mk_entry "c.txt" "c" 0x1.3333333333333p-1%float.

(** The world after alice and bob have signed up. *)
Definition world0 : World :=
  run (SignupView offline_env signup_bob) (run (SignupView offline_env signup_alice) initial_world).

(** ... after bob has posted a vacancy and alice has uploaded a CV. *)
Definition world1 : World :=
  run (uploadCV offline_env upload_manual_cv)
      (run (upload_vacancies offline_env post_vacancy) world0).





(** A small hand-built store: alice's résumé and bob's open vacancy,
    both with a two-element embedding. *)
Definition blob2 : bytes := tobytes (mk_ndarray float32 [0x3F800000%Z; 0%Z]).

Definition vacancy1 : Vacancy :=
  mk_Vacancy 1 "Backend" "Backend engineer needed" (Some "Python") "open" 2 blob2.

Definition resume1 : Resume :=
  mk_Resume 1 "1.0" "Manual Entry" "Backend engineer needed"
            "Experienced backend engineer" EmptyString 1 blob2 None.

Definition small_db : Database :=
  mk_Database (mk_table [alice; bob] 2) (mk_table [vacancy1] 1) (mk_table [resume1] 1)
              empty empty empty.


(** ... and the same store once alice's application has been accepted. *)
Definition accepted1 : Applied_resume := mk_Applied_resume 1 1 1 1%float "accepted" None.

Definition decided_world : World :=
  mk_world (with_applied_resumes (mk_table [accepted1] 1) small_db) notification_subject [].

End System.

(* ================================================================== *)
(** * The order of binary64 numbers, for the ranking                     *)
(* ================================================================== *)

Module Ordering.
Import Django.

(** A number (anything but NaN) is placed on a three-level scale: its
    class (-2 for -inf, -1 negative, 0 zero, 1 positive, 2 for +inf),
    then exponent and mantissa, both negated for negative numbers.  The
    IEEE comparison of two numbers is the lexicographic comparison of
    their places. *)
Definition place (f : spec_float) : Z * Z * Z :=
  match f with
  | S754_infinity true => (-2, 0, 0)%Z
  | S754_finite true m e => (-1, - e, - Z.pos m)%Z
  | S754_zero _ => (0, 0, 0)%Z
  | S754_nan => (0, 0, 0)%Z
  | S754_finite false m e => (1, e, Z.pos m)%Z
  | S754_infinity false => (2, 0, 0)%Z
  end.

Definition below (p q : Z * Z * Z) : Prop :=
  let '(a, b, c) := p in
  let '(a', b', c') := q in
  (a < a' \/ (a = a' /\ (b < b' \/ (b = b' /\ c < c'))))%Z.

Definition is_number (x : float) : Prop := (x =? x)%float = true.

(** The first entry, in list order, among those of greatest score. *)
Fixpoint first_max (l : list RankingEntry) : option RankingEntry :=
  match l with
  | [] => None
  | e :: l' =>
      match first_max l' with
      | None => Some e
      | Some m => if (entry_score e <? entry_score m)%float then Some m else Some e
      end
  end.

(** The best match that the loop of [uploadCVS] ends with, and its
    score: the first entry of greatest score when that score exceeds the
    initial [best_score], nothing otherwise. *)
Definition best_of (l : list RankingEntry) : option RankingEntry * float :=
  match first_max l with
  | Some m =>
      if (-1 <? entry_score m)%float then (Some m, entry_score m) else (None, (-1)%float)
  | None => (None, (-1)%float)
  end.

(** Whether an entry's score compares equal to [s]. *)
Definition scores (s : float) (e : RankingEntry) : bool :=
  (entry_score e =? s)%float.

(** No later entry has a strictly greater score than an earlier one. *)
Definition descending (l : list RankingEntry) : Prop :=
  StronglySorted (fun x y => (entry_score x <? entry_score y)%float = false) l.

End Ordering.

(* ================================================================== *)
(** * Properties                                                          *)
(* ================================================================== *)

(** ** Byte blobs *)

Module BlobFacts.
Import NumPy.

Lemma element_bytes_length k w : List.length (element_bytes k w) = k.
Proof. unfold element_bytes. now rewrite length_map, length_seq. Qed.

Lemma tobytes_length a :
  List.length (tobytes a) = itemsize (nd_dtype a) * size a.
Proof.
  unfold tobytes, size.
  induction (nd_words a) as [|w ws IH]; simpl.
  - now rewrite Nat.mul_0_r.
  - rewrite length_app, element_bytes_length, IH. lia.
Qed.

Lemma words32_total n : forall buf,
  List.length buf = 4 * n ->
  exists ws, words32 buf = Some ws /\ List.length ws = n.
Proof.
  induction n as [|n IH]; intros buf Hlen.
  - destruct buf; [|discriminate]. now exists [].
  - destruct buf as [|b0 [|b1 [|b2 [|b3 rest]]]]; simpl in Hlen; try lia.
    destruct (IH rest) as (ws & Hws & Hn); [lia|].
    exists (word32 b0 b1 b2 b3 :: ws). simpl. rewrite Hws, Hn. auto.
Qed.

Lemma frombuffer_float32_total n buf :
  List.length buf = 4 * n ->
  exists a, frombuffer_float32 buf = Ok a /\ nd_dtype a = float32 /\ size a = n.
Proof.
  intros Hlen. destruct (words32_total n buf Hlen) as (ws & Hws & Hn).
  exists (mk_ndarray float32 ws). unfold frombuffer_float32. rewrite Hws. auto.
Qed.

Lemma truthy_length b : truthy b = true <-> List.length b <> 0.
Proof. destruct b; simpl; split; intros; try easy. Qed.

Lemma tobytes_truthy a : size a <> 0 -> truthy (tobytes a) = true.
Proof.
  intros Hs. apply truthy_length. rewrite tobytes_length.
  destruct (nd_dtype a); simpl; lia.
Qed.


End BlobFacts.

(** ** C1: the default embedding *)

Module DefaultEmbedding.
Import NumPy Models BlobFacts.

Lemma random_rand_size draw n : size (random_rand draw n) = n.
Proof. unfold size, random_rand. simpl. now rewrite length_map, length_seq. Qed.

(** C1.  Whatever the generator draws, the default blob of both models
    holds 1536 elements of 8 bytes (NumPy's [random.rand] returns
    float64): it is 12288 bytes long, not 6144, and the decoding used
    by [apply_vacancy] ([np.frombuffer(..., dtype=np.float32)]) reads
    3072 elements from it, not 1536. *)
Theorem default_embedding_is_12288_bytes (draw : nat -> Z) :
  List.length (CVapp._default_embedding draw) = 8 * 1536
  /\ List.length (offer._default_embedding draw) = 8 * 1536
  /\ offer._default_embedding draw = CVapp._default_embedding draw
  /\ exists a, frombuffer_float32 (CVapp._default_embedding draw) = Ok a
               /\ size a = 3072.
Proof.
  assert (Hlen : List.length (CVapp._default_embedding draw) = 8 * 1536).
  { unfold CVapp._default_embedding. rewrite tobytes_length, random_rand_size.
    reflexivity. }
  repeat split; try exact Hlen.
  destruct (frombuffer_float32_total 3072 (CVapp._default_embedding draw))
    as (a & Ha & _ & Hs).
  - rewrite Hlen. reflexivity.
  - exists a. auto.
Qed.

End DefaultEmbedding.

(** ** C5: selection of the extraction strategy *)

Module StrategySelection.
Import PyStr Services.

Lemma lower_letter_no_dot c l :
  lower_ascii c = l -> l <> "."%char -> Ascii.eqb c "." = false.
Proof.
  intros Hl Hne. apply Ascii.eqb_neq. intros ->. apply Hne. now rewrite <- Hl.
Qed.

(** An extension that lower-cases to "pdf" contains no dot. *)
Lemma pdf_has_no_dot ext : lower ext = "pdf" -> after_last "." ext = None.
Proof.
  destruct ext as [|c1 [|c2 [|c3 [|c4 r]]]]; simpl; try discriminate.
  intros H. injection H as H1 H2 H3.
  rewrite (lower_letter_no_dot c1 "p"), (lower_letter_no_dot c2 "d"),
    (lower_letter_no_dot c3 "f"); auto; discriminate.
Qed.

Lemma after_last_append sep stem ext :
  after_last sep ext = None ->
  after_last sep (stem ++ String sep ext) = Some ext.
Proof.
  intros Hext. induction stem as [|c stem IH]; simpl.
  - now rewrite Hext, Ascii.eqb_refl.
  - now rewrite IH.
Qed.

(** The selector looks at what follows the last dot, or at the whole
    name when there is no dot. *)
Lemma strategy_by_last_segment filename :
  _get_extraction_strategy filename =
  if String.eqb (lower (match after_last "." filename with
                        | Some t => t
                        | None => filename
                        end)) "pdf"
  then PdfExtractionStrategy else TextExtractionStrategy.
Proof.
  unfold _get_extraction_strategy, rsplit1, last_item.
  now destruct (after_last "." filename).
Qed.

(** The part of C5 that holds: a name that ends in a dot followed by
    "pdf" in any letter case selects the PDF strategy. *)
Lemma pdf_extension_selects_pdf stem ext :
  lower ext = "pdf" ->
  _get_extraction_strategy (stem ++ String "." ext) = PdfExtractionStrategy.
Proof.
  intros Hext. rewrite strategy_by_last_segment.
  rewrite (after_last_append "." stem ext (pdf_has_no_dot ext Hext)), Hext.
  reflexivity.
Qed.

(** ... and a name with a dot whose last extension is not "pdf" selects
    the plain-text strategy. *)
Lemma other_extension_selects_text stem ext :
  after_last "." ext = None ->
  lower ext <> "pdf" ->
  _get_extraction_strategy (stem ++ String "." ext) = TextExtractionStrategy.
Proof.
  intros Hdot Hext. rewrite strategy_by_last_segment.
  rewrite (after_last_append "." stem ext Hdot).
  destruct (String.eqb_spec (lower ext) "pdf"); [contradiction | reflexivity].
Qed.

(** C5.  A file name without any extension is not always given the
    plain-text strategy: for the names "pdf" and "PDF", which contain no
    dot, [rsplit(".", 1)] returns the whole name and the selector answers
    with the PDF strategy. *)
Theorem extensionless_pdf_selects_pdf :
  after_last "." "pdf" = None
  /\ _get_extraction_strategy "pdf" = PdfExtractionStrategy
  /\ _get_extraction_strategy "PDF" = PdfExtractionStrategy
  /\ _get_extraction_strategy "cv.PdF" = PdfExtractionStrategy
  /\ _get_extraction_strategy "notes" = TextExtractionStrategy.
Proof. repeat split; reflexivity. Qed.

End StrategySelection.

(** ** C6: unregistering an observer *)

Module Unregister.
Import Notifications.

Lemma list_remove_absent o l :
  existsb (fun x => observer_eqb x o) l = false ->
  list_remove o l = Raise ValueError.
Proof.
  induction l as [|y l IH]; simpl; [reflexivity|].
  intros H. apply orb_false_elim in H as [Hy Hl].
  now rewrite Hy, IH.
Qed.

Lemma list_remove_first o l1 x l2 :
  forallb (fun y => negb (observer_eqb y o)) l1 = true ->
  observer_eqb x o = true ->
  list_remove o (l1 ++ x :: l2) = Ok (l1 ++ l2).
Proof.
  intros Hl1 Hx. induction l1 as [|y l1 IH]; simpl in *.
  - now rewrite Hx.
  - apply andb_prop in Hl1 as [Hy Hl1]. apply negb_true_iff in Hy.
    now rewrite Hy, IH.
Qed.

(** C6, as the code has it.  Unregistering an observer that is not in
    the list raises [ValueError] (and the list stays as it was);
    unregistering a registered observer removes its first occurrence and
    nothing else. *)
Theorem unregister_removes_first_or_raises (o : NotificationObserver)
        (self : NotificationSubject) :
  (existsb (fun x => observer_eqb x o) (_observers self) = false ->
   unregister o self = Raise ValueError)
  /\ (forall l1 x l2,
         _observers self = l1 ++ x :: l2 ->
         forallb (fun y => negb (observer_eqb y o)) l1 = true ->
         observer_eqb x o = true ->
         unregister o self = Ok (mk_subject (l1 ++ l2))).
Proof.
  unfold unregister. split.
  - intros H. now rewrite (list_remove_absent _ _ H).
  - intros l1 x l2 -> Hl1 Hx. now rewrite (list_remove_first _ _ _ _ Hl1 Hx).
Qed.

(** C6, refuted as stated: on the subject the application starts with,
    unregistering an observer that was never registered raises. *)
Lemma unregister_absent_raises :
  existsb (fun x => observer_eqb x (mk_observer 7 NotificationModelObserver))
          (_observers notification_subject) = false
  /\ unregister (mk_observer 7 NotificationModelObserver) notification_subject
     = Raise ValueError.
Proof. split; reflexivity. Qed.

End Unregister.

(** ** Facts about binary64 comparison and multiplication *)

Module FloatFacts.
Local Open Scope float_scope.

Lemma Prim2SF_zero : Prim2SF 0 = S754_zero false.
Proof. reflexivity. Qed.

Lemma eqb_zero_inv x : (x =? 0) = true -> exists s, Prim2SF x = S754_zero s.
Proof.
  rewrite FloatAxioms.eqb_spec, Prim2SF_zero.
  destruct (Prim2SF x) as [s|s| |s m e]; simpl; try discriminate.
  - intros _. now exists s.
  - destruct s; discriminate.
  - destruct s; discriminate.
Qed.

Lemma is_finite_inv y :
  is_finite y = true ->
  (exists s, Prim2SF y = S754_zero s) \/ (exists s m e, Prim2SF y = S754_finite s m e).
Proof.
  unfold is_finite, is_nan, is_infinity.
  rewrite negb_true_iff, orb_false_iff, negb_false_iff.
  rewrite !FloatAxioms.eqb_spec, FloatAxioms.abs_spec.
  change (Prim2SF infinity) with (S754_infinity false).
  intros [Hnan Hinf].
  destruct (Prim2SF y) as [s|s| |s m e]; simpl in *; try discriminate.
  - left. now exists s.
  - right. now exists s, m, e.
Qed.

(** A zero times a finite number is a zero. *)
Lemma mul_zero_finite x y :
  (x =? 0) = true -> is_finite y = true -> (x * y =? 0) = true /\ (y * x =? 0) = true.
Proof.
  intros Hx Hy. destruct (eqb_zero_inv x Hx) as [sx Ex].
  rewrite !FloatAxioms.eqb_spec, !FloatAxioms.mul_spec, Prim2SF_zero, Ex.
  destruct (is_finite_inv y Hy) as [[sy Ey] | (sy & m & e & Ey)];
    rewrite Ey; unfold SF64mul; simpl; split; reflexivity.
Qed.

End FloatFacts.

(** ** C4: cosine similarity *)

Module Cosine.
Import Services FloatFacts.
Local Open Scope float_scope.

Lemma np_dot_same_length a b :
  List.length a = List.length b -> np_dot a b = Ok (dot_acc 0 a b).
Proof. intros H. unfold np_dot. now rewrite H, Nat.eqb_refl. Qed.


(** C4, as the code has it.  For vectors of equal length the result is
    exactly 0.0 when the product of the two norms compares equal to zero,
    which is the case when one norm is zero and the other is finite; in
    every other case it is the dot product divided by the product of the
    norms.  The two examples of the claim hold. *)
Theorem cosine_similarity_guards_zero_denominator (a b : list float) :
  List.length a = List.length b ->
  let denom := np_linalg_norm a * np_linalg_norm b in
  ((denom =? 0) = true -> cosine_similarity a b = Ok 0)
  /\ ((np_linalg_norm a =? 0) = true -> is_finite (np_linalg_norm b) = true ->
      cosine_similarity a b = Ok 0)
  /\ ((np_linalg_norm b =? 0) = true -> is_finite (np_linalg_norm a) = true ->
      cosine_similarity a b = Ok 0)
  /\ ((denom =? 0) = false -> cosine_similarity a b = Ok (dot_acc 0 a b / denom))
  /\ cosine_similarity [1; 0] [1; 0] = Ok 1
  /\ cosine_similarity [1; 0] [0; 1] = Ok 0.
Proof.
  intros Hlen denom.
  assert (Hzero : (denom =? 0) = true -> cosine_similarity a b = Ok 0).
  { intros Hd. unfold cosine_similarity. fold denom. now rewrite Hd. }
  repeat split.
  - exact Hzero.
  - intros Ha Hb. apply Hzero. exact (proj1 (mul_zero_finite _ _ Ha Hb)).
  - intros Hb Ha. apply Hzero. exact (proj2 (mul_zero_finite _ _ Hb Ha)).
  - intros Hd. unfold cosine_similarity. fold denom.
    now rewrite Hd, (np_dot_same_length a b Hlen).
Qed.

(** C4, refuted as stated: the vector [0.0] has norm zero, yet its
    similarity with [2^600] (whose squared norm overflows, so that the
    product of the norms is [0 * inf = nan]) is [nan], not 0.0. *)
Lemma cosine_similarity_zero_norm_nan :
  (np_linalg_norm [0] =? 0) = true
  /\ List.length [0] = List.length [0x1p+600]
  /\ cosine_similarity [0] [0x1p+600] = Ok nan
  /\ cosine_similarity [0] [0x1p+600] <> Ok 0
  /\ cosine_similarity [0] [infinity] = Ok nan.
Proof. repeat split; try reflexivity. vm_compute. discriminate. Qed.

(** The theorem at the two vectors of the claim. *)
Lemma cosine_similarity_guards_zero_denominator_witness :
  cosine_similarity [1; 0] [1; 0] = Ok 1.
Proof.
  apply (cosine_similarity_guards_zero_denominator [1; 0] [1; 0]). reflexivity.
Defined.

End Cosine.

(** ** Facts about tables *)

Module ORMFacts.
Import ORM.

Section TableFacts.
Context {R : Type} `{Model R}.

Lemma get_unique (p : R -> bool) t r : get p t = Ok r <-> filter p t = [r].
Proof.
  unfold get. destruct (filter p t) as [|x [|y l]]; split; intros E;
    try discriminate E; congruence.
Qed.

Lemma get_In (p : R -> bool) t r : get p t = Ok r -> In r (rows t) /\ p r = true.
Proof.
  intros Hg. apply get_unique in Hg. apply filter_In. unfold filter in Hg.
  rewrite Hg. now left.
Qed.





Lemma pick_In better (l : list R) x : pick better l = Some x -> In x l.
Proof.
  unfold pick.
  assert (G : forall l0 acc,
             fold_left (fun best r =>
                          match best with
                          | None => Some r
                          | Some b => if better (pk_of r) (pk_of b) then Some r else Some b
                          end) l0 acc = Some x ->
             acc = Some x \/ In x l0).
  { induction l0 as [|y l0 IH]; simpl; intros acc Hf; [now left|].
    apply IH in Hf as [Hf | Hf]; [|now right; right].
    destruct acc as [b|].
    - destruct (better (pk_of y) (pk_of b)); injection Hf as <-; auto.
    - injection Hf as <-. auto. }
  intros Hp. apply G in Hp as [Hp | Hp]; [discriminate | exact Hp].
Qed.

Lemma first_In (p : R -> bool) t x : first p t = Some x -> In x (rows t) /\ p x = true.
Proof. intros Hf. apply pick_In in Hf. now apply filter_In in Hf. Qed.

Lemma last_In (p : R -> bool) t x : last p t = Some x -> In x (rows t) /\ p x = true.
Proof. intros Hf. apply pick_In in Hf. now apply filter_In in Hf. Qed.

End TableFacts.

End ORMFacts.

(** ** C8: the vacancy state toggle *)

Module Toggle.
Import ORM Models Django Lookups OfferViews System ORMFacts.



Lemma set_vacancy_state_twice s s' v :
  set_vacancy_state s (set_vacancy_state s' v) = set_vacancy_state s v.
Proof. reflexivity. Qed.






End Toggle.

(** ** C3: accept and reject require the state "applied" *)

Module Decisions.
Import ORM Models Notifications Django Lookups OfferViews System ORMFacts.

(** Whatever the texts, a decision on an application that is not in
    state "applied" writes nothing: neither the store nor the subject
    changes, and the only possible effect is one flash message. *)
Lemma decide_processed new_state denied tail done request rid a w :
  get (has_pk rid) (applied_resumes (db w)) = Ok a ->
  applied_state a <> "applied" ->
  let w' := run (decide new_state denied tail done request rid) w in
  db w' = db w /\ subject w' = subject w
  /\ ~ In (SUCCESS, done) (skipn (List.length (flash w)) (flash w')).
Proof.
  intros Ha Hstate. unfold run, decide, bind, get_user, get_applied, get_vacancy.
  assert (Hskip : forall (l : list (Level * string)) x, skipn (List.length l) (l ++ [x]) = [x]).
  { intros l x. rewrite skipn_app, skipn_all, Nat.sub_diag. reflexivity. }
  assert (Hskip0 : forall (l : list (Level * string)), skipn (List.length l) l = []).
  { intros l. apply skipn_all. }
  destruct (session_user_id request) as [uid|]; simpl;
    [|rewrite Hskip0; auto].
  destruct (get (has_pk uid) (users (db w))) as [user|e]; simpl;
    [|rewrite Hskip0; auto].
  rewrite Ha.
  destruct (get (has_pk (applied_vacancy_fk a)) (vacancies (db w))) as [vacancy|e]; simpl;
    [|rewrite Hskip0; auto].
  destruct (get (has_pk (vacancy_uploaded_by vacancy)) (users (db w))) as [owner|e]; simpl;
    [|rewrite Hskip0; auto].
  destruct (Nat.eqb (user_id owner) (user_id user)); simpl.
  - destruct (String.eqb_spec (applied_state a) "applied") as [E|_]; [contradiction|].
    simpl. rewrite Hskip. repeat split; auto.
    intros [[=]|[]].
  - rewrite Hskip. repeat split; auto.
    intros [H|[]]. discriminate H.
Qed.

(** C3.  An application whose state is not "applied" (in particular one
    that is "accepted" or "rejected") is left as it is by both
    [accept_resume] and [reject_resume]: the store is unchanged, so its
    state and feedback are, and no notification is created. *)
Theorem processed_application_is_final request rid a w :
  get (has_pk rid) (applied_resumes (db w)) = Ok a ->
  applied_state a <> "applied" ->
  let wa := run (accept_resume request rid) w in
  let wr := run (reject_resume request rid) w in
  db wa = db w /\ db wr = db w
  /\ get (has_pk rid) (applied_resumes (db wa)) = Ok a
  /\ get (has_pk rid) (applied_resumes (db wr)) = Ok a
  /\ notifications (db wa) = notifications (db w)
  /\ notifications (db wr) = notifications (db w).
Proof.
  intros Ha Hstate wa wr.
  destruct (decide_processed "accepted" "No tienes permiso para aceptar este CV."
              "aceptado. Nos pondremos en contacto contigo pronto."
              "CV aceptado con éxito." request rid a w Ha Hstate) as (Hda & _ & _).
  destruct (decide_processed "rejected" "No tienes permiso para rechazar este CV."
              "rechazado. ¡Gracias por participar!"
              "CV rechazado con éxito." request rid a w Ha Hstate) as (Hdr & _ & _).
  fold (accept_resume request rid) in Hda. fold (reject_resume request rid) in Hdr.
  fold wa in Hda. fold wr in Hdr.
  rewrite Hda, Hdr. repeat split; assumption.
Qed.

End Decisions.

(** ** C2: the duplicate-application guard *)

Module Apply.
Import ORM NumPy Models Django Env Services Strategies Lookups CVappViews System.
Import ORMFacts BlobFacts Cosine.


Section OneApplication.
Variables (env : Environment) (request : HttpRequest).
Variables (vid uid rid : pk) (user : User) (vacancy : Vacancy) (resume : Resume).
Variables (sel : string) (n : nat).

Hypothesis Hsession : session_user_id request = Some uid.
Hypothesis Hmethod : method request = POST.
Hypothesis Hsel : qget "resume_id" (POST_params request) = Some sel.
Hypothesis Hrid : id_lookup (Some sel) = Ok (Some rid).
Hypothesis Hn : n <> 0.
Hypothesis Hremb : List.length (resume_embedding resume) = 4 * n.
Hypothesis Hvemb : List.length (vacancy_embedding vacancy) = 4 * n.


End OneApplication.





End Apply.

(** ** C7: the improve-CV fallback *)

Module Improve.
Import ORM Models Django Env Lookups CVappViews System ORMFacts.


Section Fallback.
Variables (env : Environment) (request : HttpRequest).
Variables (uid : pk) (user : User) (resume : Resume) (w : World).

Hypothesis Hsession : session_user_id request = Some uid.
Hypothesis Huser : get (has_pk uid) (users (db w)) = Ok user.
Hypothesis Hlast : last (owned_by user) (resumes (db w)) = Some resume.
Hypothesis Hstored : get (has_pk (resume_id resume)) (resumes (db w)) = Ok resume.

Let prompt := build_prompt (vacancy_text resume) (extracted_text resume).




End Fallback.

(** A logged-in user with no résumé gets an error message and is sent
    to the upload page; an anonymous visitor is sent to the login page.
    The store is untouched in both cases. *)
Lemma mejorar_cv_without_resume env request uid user w :
  session_user_id request = Some uid ->
  get (has_pk uid) (users (db w)) = Ok user ->
  last (owned_by user) (resumes (db w)) = None ->
  answer (mejorar_cv env request) w = Ok (redirect "upload_cv")
  /\ db (run (mejorar_cv env request) w) = db w.
Proof.
  intros Hs Hu Hl.
  unfold answer, run, mejorar_cv, bind, get_user, query.
  rewrite Hs, Hu. cbv beta iota zeta. rewrite Hl.
  split; reflexivity.
Qed.

Lemma mejorar_cv_anonymous env request w :
  session_user_id request = None ->
  mejorar_cv env request w = (Ok (redirect "login"), w).
Proof. intros Hs. unfold mejorar_cv. now rewrite Hs. Qed.


End Improve.

(** ** C10: stored embeddings are never empty *)

Module Backfill.
Import ORM NumPy Models Notifications Django Env Services Strategies Lookups.
Import CVappViews OfferViews UsersViews NotificationViews System ORMFacts BlobFacts.

Section TableInvariant.
Context {R : Type} `{Model R} (P : R -> Prop).

Lemma Forall_save r t : Forall P (rows t) -> P r -> Forall P (rows (save r t)).
Proof.
  intros Ht Hr. unfold save. destruct (existsb _ _); simpl.
  - apply Forall_forall. intros x Hx. apply in_map_iff in Hx as (y & <- & Hy).
    destruct (has_pk (pk_of r) y); [exact Hr|].
    rewrite Forall_forall in Ht. now apply Ht.
  - apply Forall_app. auto.
Qed.

Lemma Forall_create mk t :
  Forall P (rows t) -> P (mk (S (last_pk t))) -> Forall P (rows (snd (create mk t))).
Proof. intros Ht Hr. simpl. apply Forall_app. auto. Qed.

Lemma Forall_delete r t : Forall P (rows t) -> Forall P (rows (delete r t)).
Proof.
  intros Ht. simpl. apply Forall_forall. intros x Hx. apply filter_In in Hx as [Hx _].
  rewrite Forall_forall in Ht. now apply Ht.
Qed.

End TableInvariant.

Lemma notify_keeps_tables s u msg d :
  resumes (notify s u msg d) = resumes d /\ vacancies (notify s u msg d) = vacancies d.
Proof.
  unfold notify. revert d. induction (_observers s) as [|o l IH]; intros d; simpl; [auto|].
  destruct (IH (observer_notify o u msg d)) as [-> ->].
  unfold observer_notify. destruct (observer_class o). simpl. auto.
Qed.

(** The array that the selected embedding service answers with: always
    float32; of 1536 elements with the mock service. *)
Lemma embed_shape env text a :
  embed env text = Ok a ->
  nd_dtype a = float32
  /\ ((exists key ws, _embedding_service env = OpenAIEmbeddingService key
                      /\ openai_embeddings_create env key text = Ok ws
                      /\ nd_words a = ws)
      \/ size a = 1536).
Proof.
  unfold embed, embed_with.
  destruct (_embedding_service env) as [key|dimension] eqn:Es.
  - destruct (openai_embeddings_create env key text) as [ws|e] eqn:Ec; simpl; [|discriminate].
    intros [= <-]. split; [reflexivity|]. left. exists key, ws. auto.
  - assert (Hd : dimension = 1536).
    { unfold _embedding_service, MockEmbeddingService_default in Es.
      repeat match type of Es with
             | context [match ?x with _ => _ end] => destruct x
             | context [if ?b then _ else _] => destruct b
             end; congruence. }
    intros [= <-]. split; [reflexivity|]. right.
    unfold size. simpl. now rewrite length_map, length_seq.
Qed.

Lemma embed_blob_truthy env text a :
  hosted_embeddings_nonempty env -> embed env text = Ok a -> truthy (tobytes a) = true.
Proof.
  intros Hh He. apply tobytes_truthy.
  destruct (embed_shape env text a He) as [_ [(key & ws & _ & Hc & Hw) | Hs]].
  - unfold size. rewrite Hw. specialize (Hh key text ws Hc).
    destruct ws; [contradiction | discriminate].
  - rewrite Hs. discriminate.
Qed.

Lemma embed_blob_1536 env text a :
  hosted_embeddings_have_1536 env -> embed env text = Ok a ->
  List.length (tobytes a) = 4 * 1536.
Proof.
  intros Hh He. rewrite tobytes_length.
  destruct (embed_shape env text a He) as [-> [(key & ws & _ & Hc & Hw) | Hs]].
  - unfold size. rewrite Hw, (Hh key text ws Hc). reflexivity.
  - rewrite Hs. reflexivity.
Qed.

(** Case analysis on every test a handler makes. *)
Ltac branches :=
  repeat (cbv beta iota zeta;
          match goal with
          | H : (_, _) = (_, _) |- _ => injection H as ? ?; subst
          | |- context [match ?x with _ => _ end] =>
              lazymatch x with
              | context [match _ with _ => _ end] => fail
              | _ => destruct x eqn:?
              end
          end).

Ltac unfold_views :=
  unfold run, home, feed, uploadCV, mejorar_cv, apply_vacancy, delete_cv, unsave_vacancy,
    CVappViews.save_vacancy, redirect_to_cv_inprover,
    uploadCVS, upload_vacancies, change_state_vacancy,
    accept_resume, reject_resume, decide,
    LoginView, LoginView_form_valid, SignupView, SignupView_form_valid, HistoryView,
    logout_view, form_invalid, notification_list, mark_notification_read,
    resume_embedding_or_backfill, vacancy_embedding_or_backfill,
    save_resume, save_vacancy_row, save_applied, save_user, subject_notify,
    get_user, get_vacancy, get_resume, get_applied,
    bind, ret, lift, query, write, messages_add.

Ltac lookups :=
  repeat match goal with
         | H : get _ _ = Ok _ |- _ => apply get_In in H as [? ?]
         | H : last _ _ = Some _ |- _ => apply last_In in H as [? ?]
         | H : first _ _ = Some _ |- _ => apply first_In in H as [? ?]
         end.

Ltac project :=
  cbn [snd fst db resumes vacancies with_resumes with_vacancies with_users
       with_applied_resumes with_saved_vacancies with_notifications].

Ltac blob_of_row :=
  cbn [resume_embedding vacancy_embedding set_upgraded_cv set_resume_embedding
       set_vacancy_state set_vacancy_embedding];
  first [ solve [eauto]
        | match goal with
          | Hin : In ?r ?l, HF : Forall _ ?l |- _ =>
              exact (proj1 (Forall_forall _ l) HF r Hin)
          end ].

Ltac blobs_of_rows :=
  lazymatch goal with
  | |- Forall _ (rows (save _ _)) => apply Forall_save; [blobs_of_rows | blob_of_row]
  | |- Forall _ (rows (delete _ _)) => apply Forall_delete; blobs_of_rows
  | |- Forall _ (rows (snd (create _ _))) =>
      apply Forall_create; [blobs_of_rows | blob_of_row]
  | |- Forall _ (rows (resumes (notify _ _ _ _))) =>
      rewrite (proj1 (notify_keeps_tables _ _ _ _)); project; blobs_of_rows
  | |- Forall _ (rows (vacancies (notify _ _ _ _))) =>
      rewrite (proj2 (notify_keeps_tables _ _ _ _)); project; blobs_of_rows
  | |- Forall _ _ => assumption
  end.

Ltac keeps :=
  intros [? ?]; unfold_views; branches; lookups;
  unfold blobs_satisfy; project; split; blobs_of_rows.

(** *** A property of every blob the embedding service produces is a
    property of every stored blob *)

Section BlobInvariant.
Variables (env : Environment) (P : bytes -> Prop).
Hypothesis embed_P : forall text a, embed env text = Ok a -> P (tobytes a).

#[local] Abbreviation inv w := (blobs_satisfy P (db w)).

Lemma home_keeps request w : inv w -> inv (run (home request) w).
Proof. keeps. Qed.

Lemma feed_keeps request w : inv w -> inv (run (feed request) w).
Proof. keeps. Qed.

Lemma uploadCV_keeps request w : inv w -> inv (run (uploadCV env request) w).
Proof. keeps. Qed.

Lemma mejorar_cv_keeps request w : inv w -> inv (run (mejorar_cv env request) w).
Proof. keeps. Qed.

Lemma apply_vacancy_keeps request vid w : inv w -> inv (run (apply_vacancy env request vid) w).
Proof. keeps. Qed.

Lemma delete_cv_keeps request cid w : inv w -> inv (run (delete_cv request cid) w).
Proof. keeps. Qed.

Lemma unsave_vacancy_keeps request vid w : inv w -> inv (run (unsave_vacancy request vid) w).
Proof. keeps. Qed.

Lemma save_vacancy_keeps request vid w :
  inv w -> inv (run (CVappViews.save_vacancy request vid) w).
Proof. keeps. Qed.

Lemma redirect_to_cv_inprover_keeps request vid origin w :
  inv w -> inv (run (redirect_to_cv_inprover request vid origin) w).
Proof. keeps. Qed.

Lemma uploadCVS_keeps request w : inv w -> inv (run (uploadCVS env request) w).
Proof. keeps. Qed.

Lemma upload_vacancies_keeps request w : inv w -> inv (run (upload_vacancies env request) w).
Proof. keeps. Qed.

Lemma change_state_vacancy_keeps request vid w :
  inv w -> inv (run (change_state_vacancy request vid) w).
Proof. keeps. Qed.

Lemma decide_keeps new_state denied tail done request rid w :
  inv w -> inv (run (decide new_state denied tail done request rid) w).
Proof. keeps. Qed.

Lemma LoginView_keeps request w : inv w -> inv (run (LoginView env request) w).
Proof. keeps. Qed.

Lemma SignupView_keeps request w : inv w -> inv (run (SignupView env request) w).
Proof. keeps. Qed.

Lemma HistoryView_keeps request w : inv w -> inv (run (HistoryView request) w).
Proof. keeps. Qed.

Lemma logout_view_keeps request w : inv w -> inv (run (logout_view request) w).
Proof. keeps. Qed.

Lemma notification_list_keeps request w : inv w -> inv (run (notification_list request) w).
Proof. keeps. Qed.

Lemma mark_notification_read_keeps request nid w :
  inv w -> inv (run (mark_notification_read request nid) w).
Proof. keeps. Qed.

Lemma step_keeps w w' : step env w w' -> inv w -> inv w'.
Proof.
  intros Hstep Hp. destruct Hstep.
  - now apply home_keeps.
  - now apply feed_keeps.
  - now apply uploadCV_keeps.
  - now apply mejorar_cv_keeps.
  - now apply apply_vacancy_keeps.
  - now apply delete_cv_keeps.
  - now apply unsave_vacancy_keeps.
  - now apply save_vacancy_keeps.
  - now apply redirect_to_cv_inprover_keeps.
  - now apply uploadCVS_keeps.
  - now apply upload_vacancies_keeps.
  - now apply change_state_vacancy_keeps.
  - now apply decide_keeps.
  - now apply decide_keeps.
  - now apply LoginView_keeps.
  - now apply SignupView_keeps.
  - now apply HistoryView_keeps.
  - now apply logout_view_keeps.
  - now apply notification_list_keeps.
  - now apply mark_notification_read_keeps.
Qed.

Lemma reachable_satisfies w : reachable env w -> blobs_satisfy P (db w).
Proof.
  intros Hreach. induction Hreach as [|w w' _ IH Hstep].
  - split; constructor.
  - exact (step_keeps w w' Hstep IH).
Qed.

End BlobInvariant.

Lemma reachable_present env w :
  hosted_embeddings_nonempty env -> reachable env w -> embeddings_present (db w).
Proof.
  intros Hh. apply reachable_satisfies. intros text a. now apply embed_blob_truthy.
Qed.

(** In reachable states every stored blob has the stored format. *)
Lemma reachable_have_1536 env w :
  hosted_embeddings_have_1536 env -> reachable env w -> embeddings_have_1536 (db w).
Proof.
  intros Hh. apply reachable_satisfies. intros text a. now apply embed_blob_1536.
Qed.

(** ... and decodes to exactly 1536 floats. *)
Lemma reachable_blobs_decode env w :
  hosted_embeddings_have_1536 env -> reachable env w ->
  (forall r, In r (rows (resumes (db w))) ->
             exists a, frombuffer_float32 (resume_embedding r) = Ok a /\ size a = 1536)
  /\ (forall v, In v (rows (vacancies (db w))) ->
                exists a, frombuffer_float32 (vacancy_embedding v) = Ok a /\ size a = 1536).
Proof.
  intros Hh Hreach. destruct (reachable_have_1536 env w Hh Hreach) as [Hr Hv].
  rewrite Forall_forall in Hr, Hv.
  split; intros x Hx;
    [destruct (frombuffer_float32_total 1536 (resume_embedding x) (Hr x Hx))
      as (a & Ha & _ & Hs)
    | destruct (frombuffer_float32_total 1536 (vacancy_embedding x) (Hv x Hx))
      as (a & Ha & _ & Hs)];
    exists a; auto.
Qed.

(** With a non-empty blob the first branch is taken: the blob is
    decoded and nothing is written. *)
Lemma resume_decoded env resume w :
  truthy (resume_embedding resume) = true ->
  resume_embedding_or_backfill env resume w
  = (frombuffer_float32 (resume_embedding resume), w).
Proof. intros Ht. unfold resume_embedding_or_backfill. now rewrite Ht. Qed.

Lemma vacancy_decoded env vacancy w :
  truthy (vacancy_embedding vacancy) = true ->
  vacancy_embedding_or_backfill env vacancy w
  = (frombuffer_float32 (vacancy_embedding vacancy), w).
Proof. intros Ht. unfold vacancy_embedding_or_backfill. now rewrite Ht. Qed.

(** Where every stored blob is present, [apply_vacancy] writes neither
    table: the two backfill branches, its only writes to them, do not run. *)
Lemma apply_vacancy_writes_no_embedding env request vid w :
  embeddings_present (db w) ->
  resumes (db (run (apply_vacancy env request vid) w)) = resumes (db w)
  /\ vacancies (db (run (apply_vacancy env request vid) w)) = vacancies (db w).
Proof.
  intros [Hr Hv]. unfold_views. branches; lookups; project; auto.
  all: exfalso;
    repeat match goal with
           | Hin : In ?r ?l, HF : Forall _ ?l |- _ =>
               pose proof (proj1 (Forall_forall _ l) HF r Hin); clear Hin
           end;
    cbv beta in *; congruence.
Qed.

(** C10.  In every state the handlers can reach from the empty store,
    all stored résumés and vacancies carry a non-empty embedding blob;
    hence for each of them the "embedding present" branch of
    [apply_vacancy] is the one taken (the blob is decoded, nothing is
    computed or saved), and [apply_vacancy] never writes the [Resume] or
    [Vacancy] table. *)
Theorem backfill_is_unreachable env w :
  hosted_embeddings_nonempty env ->
  reachable env w ->
  embeddings_present (db w)
  /\ (forall resume w0,
         In resume (rows (resumes (db w))) ->
         resume_embedding_or_backfill env resume w0
         = (frombuffer_float32 (resume_embedding resume), w0))
  /\ (forall vacancy w0,
         In vacancy (rows (vacancies (db w))) ->
         vacancy_embedding_or_backfill env vacancy w0
         = (frombuffer_float32 (vacancy_embedding vacancy), w0))
  /\ (forall request vid,
         resumes (db (run (apply_vacancy env request vid) w)) = resumes (db w)
         /\ vacancies (db (run (apply_vacancy env request vid) w)) = vacancies (db w)).
Proof.
  intros Hh Hreach.
  pose proof (reachable_present env w Hh Hreach) as Hp.
  split; [exact Hp|]. destruct Hp as [Hr Hv]. repeat split.
  - intros resume w0 Hin. apply resume_decoded.
    exact (proj1 (Forall_forall _ _) Hr resume Hin).
  - intros vacancy w0 Hin. apply vacancy_decoded.
    exact (proj1 (Forall_forall _ _) Hv vacancy Hin).
  - apply apply_vacancy_writes_no_embedding. now split.
  - apply apply_vacancy_writes_no_embedding. now split.
Qed.

End Backfill.

(** ** C2: the duplicate-application guard in reachable states *)

Module Applications.
Import ORM NumPy Models Django Env Services Strategies Lookups CVappViews System.
Import ORMFacts Apply Backfill.


End Applications.

(** ** The order of numbers *)

Module OrderFacts.
Import Ordering.
Local Open Scope float_scope.

Lemma is_number_not_nan x : is_number x -> Prim2SF x <> S754_nan.
Proof.
  unfold is_number. rewrite FloatAxioms.eqb_spec. intros H E. rewrite E in H.
  discriminate H.
Qed.

Lemma SFltb_below f g :
  f <> S754_nan -> g <> S754_nan ->
  (SFltb f g = true <-> below (place f) (place g)).
Proof.
  intros Hf Hg. unfold SFltb, SFcompare, below, place.
  destruct f as [sf|sf| |sf mf ef]; try contradiction;
    destruct g as [sg|sg| |sg mg eg]; try contradiction;
    try destruct sf; try destruct sg;
    try (split; intros H; [try discriminate H; lia | try reflexivity; lia]).
  - (* two negative numbers *)
    destruct (Z.compare_spec ef eg) as [E|E|E].
    + fold (Pos.compare mf mg).
      destruct (Pos.compare_spec mf mg) as [E'|E'|E']; simpl;
        split; intros H; try discriminate H; try reflexivity; lia.
    + split; intros H; try discriminate H; lia.
    + split; intros H; try reflexivity; lia.
  - (* two positive numbers *)
    destruct (Z.compare_spec ef eg) as [E|E|E].
    + fold (Pos.compare mf mg).
      destruct (Pos.compare_spec mf mg) as [E'|E'|E']; simpl;
        split; intros H; try discriminate H; try reflexivity; lia.
    + split; intros H; try reflexivity; lia.
    + split; intros H; try discriminate H; lia.
Qed.

Lemma ltb_below x y :
  is_number x -> is_number y ->
  ((x <? y) = true <-> below (place (Prim2SF x)) (place (Prim2SF y))).
Proof.
  intros Hx Hy. rewrite FloatAxioms.ltb_spec.
  apply SFltb_below; now apply is_number_not_nan.
Qed.

Lemma SFeqb_place f g :
  f <> S754_nan -> g <> S754_nan ->
  (SFeqb f g = true <-> place f = place g).
Proof.
  intros Hf Hg. unfold SFeqb, SFcompare, place.
  destruct f as [sf|sf| |sf mf ef]; try contradiction;
    destruct g as [sg|sg| |sg mg eg]; try contradiction;
    try destruct sf; try destruct sg;
    try (split; intros H; [try discriminate H; reflexivity | try reflexivity; discriminate H]).
  - destruct (Z.compare_spec ef eg) as [E|E|E].
    + fold (Pos.compare mf mg).
      destruct (Pos.compare_spec mf mg) as [E'|E'|E']; simpl;
        split; intros H; try discriminate H; try reflexivity; try congruence;
        injection H; lia.
    + split; intros H; try discriminate H. injection H. lia.
    + split; intros H; try discriminate H. injection H. lia.
  - destruct (Z.compare_spec ef eg) as [E|E|E].
    + fold (Pos.compare mf mg).
      destruct (Pos.compare_spec mf mg) as [E'|E'|E']; simpl;
        split; intros H; try discriminate H; try reflexivity; try congruence;
        injection H; lia.
    + split; intros H; try discriminate H. injection H. lia.
    + split; intros H; try discriminate H. injection H. lia.
Qed.

Lemma eqb_place x y :
  is_number x -> is_number y ->
  ((x =? y) = true <-> place (Prim2SF x) = place (Prim2SF y)).
Proof.
  intros Hx Hy. rewrite FloatAxioms.eqb_spec.
  apply SFeqb_place; now apply is_number_not_nan.
Qed.

(** Comparisons between numbers, decided on their places. *)
Ltac places :=
  repeat match goal with
         | H : (?x <? ?y) = true |- _ =>
             apply (proj1 (ltb_below x y ltac:(assumption) ltac:(assumption))) in H
         | H : (?x <? ?y) = false |- _ =>
             apply not_true_iff_false in H;
             rewrite (ltb_below x y ltac:(assumption) ltac:(assumption)) in H
         | H : (?x =? ?y) = true |- _ =>
             apply (proj1 (eqb_place x y ltac:(assumption) ltac:(assumption))) in H
         | |- (?x <? ?y) = true =>
             apply (proj2 (ltb_below x y ltac:(assumption) ltac:(assumption)))
         | |- (?x <? ?y) = false =>
             apply not_true_iff_false;
             rewrite (ltb_below x y ltac:(assumption) ltac:(assumption))
         end;
  unfold below in *;
  repeat match goal with
         | |- context [place ?f] =>
             let a := fresh "a" in let b := fresh "b" in let c := fresh "c" in
             destruct (place f) as [[a b] c]
         | H : context [place ?f] |- _ =>
             let a := fresh "a" in let b := fresh "b" in let c := fresh "c" in
             destruct (place f) as [[a b] c]
         end;
  cbv beta iota zeta in *;
  repeat match goal with H : (_, _, _) = (_, _, _) |- _ => injection H as ? ? ? end;
  lia.

Section Numbers.
Variables x y z : float.
Hypotheses (Hx : is_number x) (Hy : is_number y) (Hz : is_number z).

Lemma ltb_irrefl : (x <? x) = false.
Proof. places. Qed.

Lemma ltb_asym : (x <? y) = true -> (y <? x) = false.
Proof. intros H. places. Qed.

Lemma ltb_trans : (x <? y) = true -> (y <? z) = true -> (x <? z) = true.
Proof. intros H1 H2. places. Qed.

(** "not less" is transitive. *)
Lemma geb_trans : (x <? y) = false -> (y <? z) = false -> (x <? z) = false.
Proof. intros H1 H2. places. Qed.

Lemma geb_ltb_trans : (y <? x) = false -> (y <? z) = true -> (x <? z) = true.
Proof. intros H1 H2. places. Qed.

Lemma ltb_geb_trans : (x <? y) = true -> (z <? y) = false -> (x <? z) = true.
Proof. intros H1 H2. places. Qed.

(** Two numbers of which one is less than the other do not both equal [z]. *)
Lemma ltb_separates : (x <? y) = true -> (x =? z) = true -> (y =? z) = true -> False.
Proof. intros H1 H2 H3. places. Qed.

End Numbers.

Lemma minus_one_is_number : is_number (-1).
Proof. reflexivity. Qed.

End OrderFacts.

(** ** C9: the batch ranking *)

Module Ranking.
Import Django Services OfferViews System Ordering OrderFacts.
Local Open Scope float_scope.

Abbreviation numbers := (Forall (fun e => is_number (entry_score e))).

(** *** The sort *)

Lemma insert_desc_perm e l : Permutation (insert_desc e l) (e :: l).
Proof.
  induction l as [|x l IH]; simpl; [reflexivity|].
  destruct (entry_score e <? entry_score x); [|reflexivity].
  rewrite IH. apply perm_swap.
Qed.

Lemma sort_desc_perm l : Permutation (sort_desc l) l.
Proof.
  induction l as [|e l IH]; simpl; [reflexivity|].
  rewrite insert_desc_perm. now constructor.
Qed.

Lemma numbers_perm l l' : Permutation l l' -> numbers l -> numbers l'.
Proof. intros Hp. apply Permutation_Forall. exact Hp. Qed.

Lemma insert_desc_descending e l :
  is_number (entry_score e) -> numbers l ->
  descending l -> descending (insert_desc e l).
Proof.
  intros He Hl Hs. induction Hs as [|x l Hs IH Hx]; simpl.
  - repeat constructor.
  - apply Forall_cons_iff in Hl as [Hnx Hnl].
    destruct (entry_score e <? entry_score x) eqn:Elt.
    + constructor; [now apply IH|].
      apply (Permutation_Forall (Permutation_sym (insert_desc_perm e l))).
      constructor; [|exact Hx]. now apply ltb_asym.
    + constructor; [now constructor|].
      constructor; [exact Elt|].
      rewrite Forall_forall in *. intros y Hy.
      apply (geb_trans _ (entry_score x)); auto.
Qed.

Lemma sort_desc_descending l : numbers l -> descending (sort_desc l).
Proof.
  induction l as [|e l IH]; simpl; intros Hl; [constructor|].
  apply Forall_cons_iff in Hl as [He Hl].
  apply insert_desc_descending; auto.
  apply (numbers_perm l); [symmetry; apply sort_desc_perm | exact Hl].
Qed.

Lemma insert_desc_stable s e l :
  is_number s -> is_number (entry_score e) -> numbers l ->
  List.filter (scores s) (insert_desc e l) = List.filter (scores s) (e :: l).
Proof.
  intros Hs He Hl. induction l as [|x l IH]; [reflexivity|].
  apply Forall_cons_iff in Hl as [Hx Hl].
  cbn [insert_desc]. destruct (entry_score e <? entry_score x) eqn:Elt; [|reflexivity].
  cbn [List.filter]. rewrite (IH Hl). cbn [List.filter].
  destruct (scores s x) eqn:Ex, (scores s e) eqn:Ee; try reflexivity.
  exfalso. exact (ltb_separates _ _ s He Hx Hs Elt Ee Ex).
Qed.

(** Entries of equal score keep their order. *)
Lemma sort_desc_stable s l :
  is_number s -> numbers l ->
  List.filter (scores s) (sort_desc l) = List.filter (scores s) l.
Proof.
  intros Hs. induction l as [|e l IH]; intros Hl; [reflexivity|].
  apply Forall_cons_iff in Hl as [He Hl]. cbn [sort_desc fold_right].
  fold (sort_desc l). rewrite insert_desc_stable; auto.
  - cbn [List.filter]. now rewrite IH.
  - apply (numbers_perm l); [symmetry; apply sort_desc_perm | exact Hl].
Qed.

(** The head of the sorted ranking is the first entry of greatest score. *)
Lemma sort_desc_head l : hd_error (sort_desc l) = first_max l.
Proof.
  induction l as [|e l IH]; [reflexivity|].
  cbn [sort_desc fold_right first_max]. fold (sort_desc l). rewrite <- IH.
  destruct (sort_desc l) as [|x r]; [reflexivity|]. cbn [insert_desc hd_error].
  now destruct (entry_score e <? entry_score x).
Qed.

(** *** The best match *)

Lemma first_max_snoc p e :
  numbers p -> is_number (entry_score e) ->
  first_max (p ++ [e]) =
  match first_max p with
  | None => Some e
  | Some m => if entry_score m <? entry_score e then Some e else Some m
  end.
Proof.
  intros Hp He. induction p as [|x p IH]; [reflexivity|].
  apply Forall_cons_iff in Hp as [Hx Hp].
  cbn [app first_max]. rewrite (IH Hp).
  assert (Hm : forall m, first_max p = Some m -> is_number (entry_score m)).
  { clear - Hp. induction p as [|y p IH]; [discriminate|].
    apply Forall_cons_iff in Hp as [Hy Hp]. cbn [first_max]. intros m.
    destruct (first_max p) as [m'|]; [|now intros [= <-]].
    destruct (entry_score y <? entry_score m'); intros [= <-]; auto. }
  destruct (first_max p) as [m|]; [|reflexivity].
  specialize (Hm m eq_refl).
  destruct (entry_score m <? entry_score e) eqn:Eme,
           (entry_score x <? entry_score m) eqn:Exm.
  all: rewrite ?Eme, ?Exm; try reflexivity.
  - now rewrite (ltb_trans _ _ _ Hx Hm He Exm Eme).
  - now rewrite (geb_trans _ _ _ Hx Hm He Exm Eme).
Qed.

Lemma first_max_number l :
  numbers l -> forall m, first_max l = Some m -> is_number (entry_score m) /\ In m l.
Proof.
  induction l as [|y l IH]; [discriminate|]. intros Hl m.
  apply Forall_cons_iff in Hl as [Hy Hl]. cbn [first_max].
  destruct (first_max l) as [m'|]; [|intros [= <-]; split; [assumption | now left]].
  destruct (IH Hl m' eq_refl) as [Hn Hin].
  destruct (entry_score y <? entry_score m'); intros [= <-].
  - split; [assumption | now right].
  - split; [assumption | now left].
Qed.

Lemma first_max_none l : first_max l = None -> l = [].
Proof.
  destruct l as [|y l]; [reflexivity|]. cbn [first_max].
  destruct (first_max l) as [m|]; [|discriminate].
  destruct (entry_score y <? entry_score m); discriminate.
Qed.

Lemma first_max_greatest l :
  numbers l -> forall m, first_max l = Some m ->
  Forall (fun e => (entry_score m <? entry_score e) = false) l.
Proof.
  induction l as [|y l IH]; [constructor|]. intros Hl m.
  apply Forall_cons_iff in Hl as [Hy Hl]. cbn [first_max].
  destruct (first_max l) as [m'|] eqn:Em.
  - destruct (first_max_number l Hl m' Em) as [Hm' _].
    specialize (IH Hl m' eq_refl).
    destruct (entry_score y <? entry_score m') eqn:Elt; intros [= <-].
    + constructor; [now apply ltb_asym | exact IH].
    + constructor; [now apply ltb_irrefl|].
      rewrite Forall_forall in *. intros e He.
      apply (geb_trans _ (entry_score m')); auto.
  - intros [= <-]. rewrite (first_max_none l Em).
    constructor; [now apply ltb_irrefl | constructor].
Qed.

(** The loop: the ranking collects the entries in order, and the best
    match is [best_of] them. *)
Lemma tally_spec l :
  numbers l ->
  let t := fold_left tally_step l tally_init in
  ranking t = l /\ (best_cv t, best_score t) = best_of l.
Proof.
  induction l as [|e p IH] using rev_ind; intros Hl; [now split|].
  apply Forall_app in Hl as [Hp He]. apply Forall_cons_iff in He as [He _].
  destruct (IH Hp) as [Hr Hb]. cbv zeta in *.
  rewrite fold_left_app. cbn [fold_left].
  set (t := fold_left tally_step p tally_init) in *.
  unfold tally_step, best_of in *. rewrite (first_max_snoc p e Hp He), Hr.
  pose proof minus_one_is_number as H1.
  destruct (first_max p) as [m|] eqn:Em.
  - destruct (first_max_number p Hp m Em) as [Hm _].
    destruct (-1 <? entry_score m) eqn:E1; injection Hb as Hb1 Hb2; rewrite Hb2.
    + destruct (entry_score m <? entry_score e) eqn:E2; cbn [ranking best_cv best_score].
      * rewrite (ltb_trans _ _ _ H1 Hm He E1 E2). now split.
      * rewrite E1, ?Hb1, ?Hb2. now split.
    + destruct (-1 <? entry_score e) eqn:E3; cbn [ranking best_cv best_score].
      * rewrite (geb_ltb_trans _ _ _ Hm H1 He E1 E3), E3. now split.
      * rewrite ?Hb1, ?Hb2.
        destruct (entry_score m <? entry_score e); rewrite ?E1, ?E3; now split.
  - injection Hb as Hb1 Hb2. rewrite Hb2.
    destruct (-1 <? entry_score e) eqn:E3; cbn [ranking best_cv best_score];
      rewrite ?Hb1, ?Hb2; now split.
Qed.

(** What the handler shows is right whenever some score exceeds -1.0:
    the ranking is a stable descending arrangement of the entries and
    the best match is its head.  In general the best match is the head
    only if the head's score exceeds -1.0. *)
Lemma rank_above_initial_score l :
  numbers l ->
  Permutation (fst (rank l)) l
  /\ descending (fst (rank l))
  /\ (forall s, is_number s ->
       List.filter (scores s) (fst (rank l)) = List.filter (scores s) l)
  /\ snd (rank l) = match hd_error (fst (rank l)) with
                    | Some m => if -1 <? entry_score m then Some m else None
                    | None => None
                    end
  /\ ((exists e, In e l /\ (-1 <? entry_score e) = true) ->
      snd (rank l) = hd_error (fst (rank l))).
Proof.
  intros Hl. destruct (tally_spec l Hl) as [Hr Hb]. unfold rank. cbn [fst snd].
  rewrite Hr. apply (f_equal fst) in Hb. cbn [fst] in Hb.
  assert (Hbest : best_cv (fold_left tally_step l tally_init)
                  = match hd_error (sort_desc l) with
                    | Some m => if -1 <? entry_score m then Some m else None
                    | None => None
                    end).
  { rewrite Hb, sort_desc_head. unfold best_of.
    destruct (first_max l) as [m|]; [|reflexivity].
    now destruct (-1 <? entry_score m). }
  repeat split.
  - apply sort_desc_perm.
  - now apply sort_desc_descending.
  - intros s Hs. now apply sort_desc_stable.
  - exact Hbest.
  - intros (e & Hin & He). rewrite Hbest, sort_desc_head.
    destruct (first_max l) as [m|] eqn:Em; [|reflexivity].
    destruct (first_max_number l Hl m Em) as [Hm _].
    pose proof (first_max_greatest l Hl m Em) as Hg.
    rewrite Forall_forall in Hg, Hl.
    rewrite (ltb_geb_trans _ _ _ minus_one_is_number (Hl e Hin) Hm He (Hg e Hin)).
    reflexivity.
Qed.

(** The loop over the files, when every file yields an entry. *)
Lemma for_each_file_entries env v files : forall entries t,
  Forall2 (fun f e => score_file env v f = Ok e) files entries ->
  for_each_file env v files t = Ok (fold_left tally_step entries t).
Proof.
  induction files as [|f files IH]; intros entries t H; inversion H; subst; [reflexivity|].
  cbn [for_each_file fold_left]. match goal with E : score_file _ _ _ = _ |- _ => rewrite E end.
  cbn [rbind]. now apply IH.
Qed.

(** C9.  On the scores 0.9, 0.3, 0.6 the ranking is [0.9; 0.6; 0.3] and
    the best match is the 0.9 entry.  But the best match is not always
    the head of the ranking: [best_score] starts at -1.0 and is replaced
    only by a strictly greater score, so when the one uploaded CV has the
    embedding opposite to the vacancy's (cosine similarity exactly -1.0)
    the handler shows that entry in the ranking and no best match. *)
Theorem best_match_missing_at_minus_one :
  rank [entry_09; entry_03; entry_06] = ([entry_09; entry_06; entry_03], Some entry_09)
  /\ rank [mk_entry "-a.txt" "-a" (-1)] = ([mk_entry "-a.txt" "-a" (-1)], None)
  /\ answer (uploadCVS hosted_env ranking_request) world0
     = Ok (render "matchingPage.html"
             [("form", CtxForm); ("user", CtxUser bob);
              ("ranking", CtxRanking [mk_entry "-a.txt" "-a" (-1)]);
              ("best_cv", CtxBest None);
              ("vacancy", CtxText "dev")]).
Proof. repeat split; vm_compute; reflexivity. Qed.

End Ranking.

(** ** The theorems at concrete inputs *)

Module Witnesses.
Import ORM NumPy Models Notifications Django Env Services Strategies Lookups.
Import CVappViews OfferViews UsersViews NotificationViews System.

Lemma world1_reachable : reachable offline_env world1.
Proof.
  unfold world1, world0.
  repeat (eapply reachable_step;
          [| first [apply step_uploadCV | apply step_upload_vacancies
                   | apply step_SignupView]]).
  apply reachable_initial.
Qed.


(** Bob rejects the application he has already accepted: it stays
    accepted. *)
Lemma processed_application_is_final_witness :
  get (has_pk 1)
      (applied_resumes (db (run (reject_resume (as_user 2 GET [] []) 1) decided_world)))
  = Ok accepted1.
Proof.
  apply (Decisions.processed_application_is_final (as_user 2 GET [] []) 1 accepted1
           decided_world).
  - reflexivity.
  - discriminate.
Defined.

(** The default observer is registered once; unregistering it leaves no
    observer. *)
Lemma unregister_removes_first_or_raises_witness :
  unregister (mk_observer 0 NotificationModelObserver) notification_subject
  = Ok (mk_subject []).
Proof.
  apply (proj2 (Unregister.unregister_removes_first_or_raises
                  (mk_observer 0 NotificationModelObserver) notification_subject)
               [] (mk_observer 0 NotificationModelObserver) []);
    reflexivity.
Defined.



(** The world after two sign-ups, a posted vacancy and an uploaded CV
    is reachable, and its blobs are present. *)
Lemma backfill_is_unreachable_witness : embeddings_present (db world1).
Proof.
  apply (Backfill.backfill_is_unreachable offline_env world1).
  - intros key text ws H. discriminate H.
  - exact world1_reachable.
Defined.

End Witnesses.
